(** * Weather/traffic analytical core: a shallow embedding

    The embedding follows [data_processors/weather_processor.py]
    ([WeatherDataProcessor]) and [data_processors/correlation_analyzer.py]
    ([CorrelationAnalyzer]).

    Modelling conventions.
    - A pandas [DataFrame] is a list of column names and a list of rows.
      The row index is positional ([reset_index(drop=True)] is the identity
      on the model).
    - A numeric cell is [option Q]: [None] is NaN, [Some q] a finite float,
      read as the rational it denotes.  Comparisons are exact in both
      readings; a sum, mean or quotient is exact here, and the code
      returns its float64 rounding.
    - A date cell is a raw string, a [Timestamp] or [NaT].
    - Python exceptions are the [Raise] outcome of [result]; [try/except]
      is [try_except].
    - Objects that the code mutates in place (the caller's frames in the
      correlation analyzer, the [events] dictionary of the detector) are
      threaded as explicit state that survives a raised exception. *)

From Stdlib Require Import ZArith QArith Qround Qabs String Ascii List Bool Sorted Lia Lqa.
From stdpp Require Import gmap strings list fin_maps.

Local Open Scope string_scope.
Local Open Scope list_scope.

(** ** Exceptions *)

Inductive exn := KeyError | ValueError | AttributeError | IndexError.

Inductive result (A : Type) :=
| Ok (a : A)
| Raise (e : exn).
Arguments Ok {A} a.
Arguments Raise {A} e.

Definition rbind {A B} (m : result A) (k : A -> result B) : result B :=
  match m with
  | Ok a => k a
  | Raise e => Raise e
  end.

Definition try_except {A} (body : result A) (handler : exn -> result A) : result A :=
  match body with
  | Ok a => Ok a
  | Raise e => handler e
  end.

Declare Scope result_scope.
Delimit Scope result_scope with result.
Notation "x <- m ;; k" := (rbind m (fun x => k))
  (at level 100, m at next level, right associativity) : result_scope.

Fixpoint mapM {A B} (f : A -> result B) (l : list A) : result (list B) :=
  match l with
  | [] => Ok []
  | a :: t =>
      (b <- f a ;;
       bs <- mapM f t ;;
       Ok (b :: bs))%result
  end.

(** State that survives an exception: the shape of Python code mutating
    an object and then raising. *)
Definition M (S A : Type) : Type := S -> result A * S.

Definition mret {S A} (a : A) : M S A := fun s => (Ok a, s).
Definition mbind {S A B} (m : M S A) (k : A -> M S B) : M S B :=
  fun s => match m s with
           | (Ok a, s') => k a s'
           | (Raise e, s') => (Raise e, s')
           end.
Definition mget {S} : M S S := fun s => (Ok s, s).
Definition mmodify {S} (f : S -> S) : M S unit := fun s => (Ok tt, f s).
Definition mlift {S A} (r : result A) : M S A := fun s => (r, s).
Definition mtry {S A} (body : M S A) (handler : exn -> M S A) : M S A :=
  fun s => match body s with
           | (Ok a, s') => (Ok a, s')
           | (Raise e, s') => handler e s'
           end.

Declare Scope state_scope.
Delimit Scope state_scope with state.
Notation "x <~ m ;; k" := (mbind m (fun x => k))
  (at level 100, m at next level, right associativity) : state_scope.
Notation "m ;;; k" := (mbind m (fun _ => k))
  (at level 100, right associativity) : state_scope.

Fixpoint mfor {S A} (l : list A) (body : A -> M S unit) : M S unit :=
  match l with
  | [] => mret tt
  | a :: t => (body a ;;; mfor t body)%state
  end.

Definition when_ {S} (b : bool) (m : M S unit) : M S unit :=
  if b then m else mret tt.

(** ** Data model *)

Inductive datecell :=
| DateStr (s : string)
| Timestamp (t : Z)
| NaT.

Definition num := option Q.

Record row := mkRow {
  r_date : datecell;
  r_TMAX : num;
  r_TMIN : num;
  r_TAVG : num;
  r_PRCP : num;
  r_AWND : num;
  r_SNOW : num;
  r_traffic_volume : num;
  r_avg_speed : num
}.

Record frame := mkFrame {
  columns : list string;
  rows : list row
}.

(** [col in df.columns] *)
Definition has_column (df : frame) (c : string) : bool :=
  existsb (String.eqb c) (columns df).

(** [df.empty]: some axis has length zero. *)
Definition empty (df : frame) : bool :=
  (Nat.eqb (length (rows df)) 0) || (Nat.eqb (length (columns df)) 0).

(** The numeric cell of a row under a column name. *)
Definition cell (c : string) (r : row) : num :=
  if String.eqb c "TMAX" then r_TMAX r
  else if String.eqb c "TMIN" then r_TMIN r
  else if String.eqb c "TAVG" then r_TAVG r
  else if String.eqb c "PRCP" then r_PRCP r
  else if String.eqb c "AWND" then r_AWND r
  else if String.eqb c "SNOW" then r_SNOW r
  else if String.eqb c "traffic_volume" then r_traffic_volume r
  else if String.eqb c "avg_speed" then r_avg_speed r
  else None.

(** [df[c]]: a [KeyError] when the column does not exist. *)
Definition getcol (df : frame) (c : string) : result (list num) :=
  if has_column df c then Ok (map (cell c) (rows df)) else Raise KeyError.

Definition with_rows (df : frame) (rs : list row) : frame :=
  mkFrame (columns df) rs.

(** ** Float comparisons: every comparison with NaN is false. *)

Definition Qlt_bool (a b : Q) : bool := negb (Qle_bool b a).

Definition num_ge (v : num) (q : num) : bool :=
  match v, q with
  | Some a, Some b => Qle_bool b a
  | _, _ => false
  end.
Definition num_le (v : num) (q : num) : bool :=
  match v, q with
  | Some a, Some b => Qle_bool a b
  | _, _ => false
  end.
Definition num_gt (v : num) (q : num) : bool :=
  match v, q with
  | Some a, Some b => Qlt_bool b a
  | _, _ => false
  end.
Definition num_lt (v : num) (q : num) : bool :=
  match v, q with
  | Some a, Some b => Qlt_bool a b
  | _, _ => false
  end.
Definition num_eq (v : num) (q : num) : bool :=
  match v, q with
  | Some a, Some b => Qeq_bool a b
  | _, _ => false
  end.

(** ** Series reductions (NaN is skipped) *)

Definition valid (col : list num) : list Q := omap id col.

Fixpoint insertQ (x : Q) (l : list Q) : list Q :=
  match l with
  | [] => [x]
  | y :: t => if Qle_bool x y then x :: y :: t else y :: insertQ x t
  end.

Definition sortQ (l : list Q) : list Q := foldr insertQ [] l.

(** [Series.quantile(q)], linear interpolation between the two nearest
    order statistics; NaN when no value is present. *)
Definition quantile (q : Q) (col : list num) : num :=
  let vs := sortQ (valid col) in
  match vs with
  | [] => None
  | v0 :: _ =>
      let pos := (q * (inject_Z (Z.of_nat (length vs)) - 1))%Q in
      let lo := Qfloor pos in
      let frac := (pos - inject_Z lo)%Q in
      let a := nth (Z.to_nat lo) vs v0 in
      let b := nth (S (Z.to_nat lo)) vs a in
      Some (a + (b - a) * frac)%Q
  end.

Definition Qmax (a b : Q) : Q := if Qle_bool a b then b else a.
Definition Qmin (a b : Q) : Q := if Qle_bool a b then a else b.

Definition series_max (col : list num) : num :=
  match valid col with
  | [] => None
  | v :: vs => Some (fold_left Qmax vs v)
  end.
Definition series_min (col : list num) : num :=
  match valid col with
  | [] => None
  | v :: vs => Some (fold_left Qmin vs v)
  end.
Definition Qsum (l : list Q) : Q := fold_left Qplus l 0%Q.

(** [Series.mean()], computed exactly.  float64 rounds the sum and the
    quotient, so the mean pandas returns can differ from this one in its
    last digits and can even fall just outside the range of the values;
    nothing is proved here about how a mean compares with the values it
    averages. *)
Definition series_mean (col : list num) : num :=
  match valid col with
  | [] => None
  | vs => Some (Qsum vs / inject_Z (Z.of_nat (length vs)))%Q
  end.

(** ** Sorting by date *)

Definition ts_key (d : datecell) : Z :=
  match d with
  | Timestamp t => t
  | _ => 0%Z
  end.

Fixpoint insert_by_date (r : row) (l : list row) : list row :=
  match l with
  | [] => [r]
  | x :: t =>
      if (ts_key (r_date r) <=? ts_key (r_date x))%Z
      then r :: x :: t
      else x :: insert_by_date r t
  end.

(** [sort_values('date')] on a column of Timestamps.  pandas sorts with
    quicksort, which promises no order among rows of equal date; the model
    keeps their relative order, one of the orders the call may return.
    Rows of pairwise distinct dates have a single sorted order, and what
    is proved of the order of a result relies only on the result being a
    sorted rearrangement of the rows. *)
Definition sort_values_date (l : list row) : list row :=
  foldr insert_by_date [] l.

Definition set_date (d : datecell) (r : row) : row :=
  mkRow d (r_TMAX r) (r_TMIN r) (r_TAVG r) (r_PRCP r) (r_AWND r) (r_SNOW r)
        (r_traffic_volume r) (r_avg_speed r).

Definition isna_date (d : datecell) : bool :=
  match d with
  | NaT => true
  | _ => false
  end.

Section Core.

(** [pd.to_datetime] on one string: the timestamp it denotes, or [None]
    when pandas cannot parse it (it then raises). *)
Variable to_timestamp : string -> option Z.

(** [Timestamp.strftime('%Y-%m-%d')]. *)
Variable strftime : Z -> string.

Definition to_datetime_cell (d : datecell) : result datecell :=
  match d with
  | DateStr s =>
      match to_timestamp s with
      | Some t => Ok (Timestamp t)
      | None => Raise ValueError
      end
  | Timestamp t => Ok (Timestamp t)
  | NaT => Ok NaT
  end.

(** [pd.to_datetime(df['date'])]: the converted column, or the first
    error. *)
Definition to_datetime (df : frame) : result (list datecell) :=
  if has_column df "date"
  then mapM to_datetime_cell (map r_date (rows df))
  else Raise KeyError.

(** [df['date'] = dates] *)
Definition assign_date (df : frame) (dates : list datecell) : frame :=
  mkFrame (if has_column df "date" then columns df else columns df ++ ["date"])
          (zip_with set_date dates (rows df)).

(** [df.dropna(subset=['date'])] *)
Definition dropna_date (df : frame) : result frame :=
  if has_column df "date"
  then Ok (with_rows df (List.filter (fun r => negb (isna_date (r_date r))) (rows df)))
  else Raise KeyError.

(** One pass of the outlier filter of [clean_weather_data] for column
    [col]. *)
Definition trim_outliers (col : string) (df : frame) : frame :=
  if has_column df col then
    let q1 := quantile (1 # 100) (map (cell col) (rows df)) in
    let q3 := quantile (99 # 100) (map (cell col) (rows df)) in
    with_rows df
      (List.filter (fun r => num_ge (cell col r) q1 && num_le (cell col r) q3) (rows df))
  else df.

Definition drop_negative (col : string) (df : frame) : frame :=
  if has_column df col then
    with_rows df (List.filter (fun r => num_ge (cell col r) (Some 0%Q)) (rows df))
  else df.

Definition temp_cols : list string := ["TMAX"; "TMIN"; "TAVG"].

Definition clean_body (df : frame) : result frame :=
  (let cleaned_df := df in
   cleaned_df <-
     (if has_column cleaned_df "date"
      then dates <- to_datetime cleaned_df ;; Ok (assign_date cleaned_df dates)
      else Ok cleaned_df) ;;
   cleaned_df <- dropna_date cleaned_df ;;
   let cleaned_df := fold_left (fun d col => trim_outliers col d) temp_cols cleaned_df in
   let cleaned_df := drop_negative "PRCP" cleaned_df in
   let cleaned_df := drop_negative "AWND" cleaned_df in
   Ok (with_rows cleaned_df (sort_values_date (rows cleaned_df))))%result.

Definition clean_weather_data (df : frame) : result frame :=
  if empty df then Ok df
  else try_except (clean_body df) (fun _ => Ok df).


(** ** Extreme events *)

Record run_event := mkRun {
  start_date : string;
  end_date : string;
  duration : nat;
  max_value : num;
  min_value : num;
  avg_value : num
}.

(** A point event: its date, the measurement (stored under the key
    [pe_field], e.g. ['wind_speed']) and the severity label. *)
Record point_event := mkPoint {
  pe_date : string;
  pe_field : string;
  pe_value : num;
  pe_severity : string
}.

Inductive event :=
| RunEvent (e : run_event)
| PointEvent (e : point_event).

(** [row['date']] *)
Definition row_date (df : frame) (r : row) : result datecell :=
  if has_column df "date" then Ok (r_date r) else Raise KeyError.

(** [d.strftime('%Y-%m-%d')]: a string has no such method, NaT refuses. *)
Definition strftime_cell (d : datecell) : result string :=
  match d with
  | Timestamp t => Ok (strftime t)
  | DateStr _ => Raise AttributeError
  | NaT => Raise ValueError
  end.

(** [group_data.iloc[0]] and [group_data.iloc[-1]] *)
Definition iloc_first (l : list row) : result row :=
  match l with
  | [] => Raise IndexError
  | r :: _ => Ok r
  end.
Definition iloc_last (l : list row) : result row :=
  match List.rev l with
  | [] => Raise IndexError
  | r :: _ => Ok r
  end.

(** The boolean mask of [_detect_consecutive_events]; [None] for an
    unknown comparison (the function then returns no event). *)
Definition comparison_mask (comparison : string) (threshold : Q) (col : list num)
  : option (list bool) :=
  if String.eqb comparison ">" then Some (map (fun v => num_gt v (Some threshold)) col)
  else if String.eqb comparison "<" then Some (map (fun v => num_lt v (Some threshold)) col)
  else if String.eqb comparison "==" then Some (map (fun v => num_eq v (Some threshold)) col)
  else if String.eqb comparison ">=" then Some (map (fun v => num_ge v (Some threshold)) col)
  else if String.eqb comparison "<=" then Some (map (fun v => num_le v (Some threshold)) col)
  else None.

(** [mask.shift()]: the first position holds NaN. *)
Definition shift (mask : list bool) : list (option bool) :=
  match mask with
  | [] => []
  | _ => None :: map Some (removelast mask)
  end.

(** One position of [mask != mask.shift()]. *)
Definition differs (b : bool) (s : option bool) : bool :=
  match s with
  | None => true
  | Some b' => xorb b b'
  end.

Fixpoint cumsum (acc : nat) (l : list bool) : list nat :=
  match l with
  | [] => []
  | b :: t =>
      let acc' := if b then S acc else acc in
      acc' :: cumsum acc' t
  end.

(** [(mask != mask.shift()).cumsum()] *)
Definition consecutive_groups (mask : list bool) : list nat :=
  cumsum 0 (zip_with differs mask (shift mask)).

(** The keys of [groupby(ids)]: the distinct ids in ascending order. *)
Definition group_keys (ids : list nat) : list nat :=
  List.filter (fun k => existsb (Nat.eqb k) ids) (seq 0 (S (list_max ids))).

(** [mask.groupby(ids).sum()] at key [k]: the number of true positions. *)
Definition group_count (mask : list bool) (ids : list nat) (k : nat) : nat :=
  length (List.filter (fun bi => fst bi && Nat.eqb (snd bi) k) (combine mask ids)).

(** [df[ids == k]] *)
Definition group_rows (rs : list row) (ids : list nat) (k : nat) : list row :=
  map fst (List.filter (fun ri => Nat.eqb (snd ri) k) (combine rs ids)).

(** The dictionary built for one group of rows. *)
Definition run_event_of (df : frame) (column : string) (group_data : list row)
  : result run_event :=
  (first <- iloc_first group_data ;;
   d0 <- row_date df first ;;
   s0 <- strftime_cell d0 ;;
   last <- iloc_last group_data ;;
   d1 <- row_date df last ;;
   s1 <- strftime_cell d1 ;;
   Ok (mkRun s0 s1 (length group_data)
             (series_max (map (cell column) group_data))
             (series_min (map (cell column) group_data))
             (series_mean (map (cell column) group_data))))%result.

(** The body of the [try] block; the state is the local list [events]. *)
Definition consecutive_body (df : frame) (column : string) (threshold : Q)
    (min_consecutive : nat) (comparison : string) : M (list run_event) unit :=
  (col <~ mlift (getcol df column) ;;
   match comparison_mask comparison threshold col with
   | None => mret tt
   | Some mask =>
       let consecutive_groups := consecutive_groups mask in
       let valid_groups :=
         List.filter (fun k => Nat.leb min_consecutive (group_count mask consecutive_groups k))
                     (group_keys consecutive_groups) in
       mfor valid_groups (fun group_id =>
         let group_data := group_rows (rows df) consecutive_groups group_id in
         when_ (Nat.leb min_consecutive (length group_data))
           (e <~ mlift (run_event_of df column group_data) ;;
            mmodify (fun events => events ++ [e])))
   end)%state.

(** [_detect_consecutive_events]: whatever happens, the list built so
    far is returned. *)
Definition _detect_consecutive_events (df : frame) (column : string) (threshold : Q)
    (min_consecutive : nat) (comparison : string) : list run_event :=
  snd (consecutive_body df column threshold min_consecutive comparison []).

Definition extreme_thresholds (k : string) : Q :=
  if String.eqb k "heatwave_temp" then 90%Q
  else if String.eqb k "cold_spell_temp" then 32%Q
  else if String.eqb k "heavy_rain" then 2%Q
  else if String.eqb k "snowstorm" then 6%Q
  else if String.eqb k "high_wind" then 20%Q
  else if String.eqb k "extreme_wind" then 50%Q
  else 0%Q.

Definition initial_events : gmap string (list event) :=
  <["heatwaves" := []]> (<["cold_spells" := []]> (<["heavy_rainfall" := []]>
  (<["snowstorms" := []]> (<["high_winds" := []]> (<["drought_periods" := []]> ∅))))).

(** [events[k].append(e)] *)
Definition append_event (k : string) (e : event) (events : gmap string (list event))
  : gmap string (list event) :=
  match events !! k with
  | Some l => <[k := l ++ [e]]> events
  | None => events
  end.

(** The loop over the rows selected for a point category. *)
Definition point_events (df : frame) (key field column : string)
    (selected : list row) (severity : row -> string)
  : M (gmap string (list event)) unit :=
  mfor selected (fun day =>
    (d <~ mlift (row_date df day) ;;
     s <~ mlift (strftime_cell d) ;;
     mmodify (append_event key
                (PointEvent (mkPoint s field (cell column day) (severity day)))))%state).

Definition detect_body (df : frame) : M (gmap string (list event)) unit :=
  (when_ (has_column df "TMAX")
     (mmodify (insert "heatwaves"
        (map RunEvent (_detect_consecutive_events df "TMAX"
                         (extreme_thresholds "heatwave_temp") 3 ">")))) ;;;
   when_ (has_column df "TMIN")
     (mmodify (insert "cold_spells"
        (map RunEvent (_detect_consecutive_events df "TMIN"
                         (extreme_thresholds "cold_spell_temp") 3 "<")))) ;;;
   when_ (has_column df "PRCP")
     (point_events df "heavy_rainfall" "precipitation" "PRCP"
        (List.filter (fun r => num_gt (cell "PRCP" r) (Some (extreme_thresholds "heavy_rain")))
                     (rows df))
        (fun _ => "heavy")) ;;;
   when_ (has_column df "SNOW")
     (point_events df "snowstorms" "snowfall" "SNOW"
        (List.filter (fun r => num_gt (cell "SNOW" r) (Some (extreme_thresholds "snowstorm")))
                     (rows df))
        (fun _ => "storm")) ;;;
   when_ (has_column df "AWND")
     (point_events df "high_winds" "wind_speed" "AWND"
        (List.filter (fun r => num_gt (cell "AWND" r) (Some (extreme_thresholds "high_wind")))
                     (rows df))
        (fun day => if num_lt (cell "AWND" day) (Some (extreme_thresholds "extreme_wind"))
                    then "high" else "extreme")) ;;;
   when_ (has_column df "PRCP")
     (mmodify (insert "drought_periods"
        (map RunEvent (_detect_consecutive_events df "PRCP" 0%Q 7 "==")))))%state.

Definition detect_extreme_events (df : frame) : result (gmap string (list event)) :=
  let events := initial_events in
  if empty df then Ok events
  else fst (mtry (detect_body df ;;; mget)%state (fun _ => mget) events).

(** ** Correlation analysis *)

(** [Series.corr] (Pearson) on two cleaned series of equal length, and the
    p-value of [scipy.stats.pearsonr]: numerical routines outside the
    repository, taken as they are. *)
Variable series_corr : list Q -> list Q -> result num.
Variable pearsonr_p_value : list Q -> list Q -> result num.

(** The objects owned by the caller of the analyzer. *)
Record caller := mkCaller {
  weather_df : frame;
  traffic_df : frame
}.

Definition date_eqb (a b : datecell) : bool :=
  match a, b with
  | Timestamp x, Timestamp y => Z.eqb x y
  | NaT, NaT => true
  | DateStr x, DateStr y => String.eqb x y
  | _, _ => false
  end.

(** Column names of [pd.merge(left, right, on='date')]: a name carried by
    both sides, other than the key, gets the suffixes [_x] and [_y]. *)
Definition merged_columns (left right : frame) : list string :=
  map (fun c => if negb (String.eqb c "date") && has_column right c
                then (c ++ "_x")%string else c) (columns left)
  ++ map (fun c => if has_column left c then (c ++ "_y")%string else c)
         (List.filter (fun c => negb (String.eqb c "date")) (columns right)).

Definition merge_cell (left right : frame) (c : string) (a b : row) : num :=
  if has_column left c && negb (has_column right c) then cell c a
  else if has_column right c && negb (has_column left c) then cell c b
  else None.

Definition merge_row (left right : frame) (a b : row) : row :=
  mkRow (r_date a)
        (merge_cell left right "TMAX" a b) (merge_cell left right "TMIN" a b)
        (merge_cell left right "TAVG" a b) (merge_cell left right "PRCP" a b)
        (merge_cell left right "AWND" a b) (merge_cell left right "SNOW" a b)
        (merge_cell left right "traffic_volume" a b)
        (merge_cell left right "avg_speed" a b).

(** [pd.merge(left, right, on='date', how='inner')]: row order follows the
    left frame, then the right one. *)
Definition merge (left right : frame) : result frame :=
  if has_column left "date" && has_column right "date" then
    Ok (mkFrame (merged_columns left right)
          (flat_map (fun a =>
             map (merge_row left right a)
                 (List.filter (fun b => date_eqb (r_date a) (r_date b)) (rows right)))
             (rows left)))
  else Raise KeyError.

(** Rows of two series where neither value is NaN. *)
Definition paired (x y : list num) : list (Q * Q) :=
  omap (fun xy => match xy with
                  | (Some a, Some b) => Some (a, b)
                  | _ => None
                  end) (combine x y).

Definition _calculate_correlation (x y : list num) : num :=
  let body :=
    let clean := paired x y in
    if Nat.ltb (length clean) 2 then Ok (Some 0%Q)
    else series_corr (map fst clean) (map snd clean) in
  match try_except body (fun _ => Ok (Some 0%Q)) with
  | Ok v => v
  | Raise _ => Some 0%Q
  end.

Definition _calculate_p_value (x y : list num) : num :=
  let body :=
    let clean := paired x y in
    if Nat.ltb (length clean) 2 then Ok (Some 1%Q)
    else pearsonr_p_value (map fst clean) (map snd clean) in
  match try_except body (fun _ => Ok (Some 1%Q)) with
  | Ok v => v
  | Raise _ => Some 1%Q
  end.

Definition num_abs (v : num) : num := option_map Qabs v.

Definition _get_correlation_strength (correlation : num) : string :=
  let abs_corr := num_abs correlation in
  if num_ge abs_corr (Some (7 # 10)) then "strong"
  else if num_ge abs_corr (Some (5 # 10)) then "moderate"
  else if num_ge abs_corr (Some (3 # 10)) then "weak"
  else "negligible".

Record correlation_result := mkCorr {
  correlation : num;
  strength : string;
  p_value : num
}.

Definition pair_result (merged_df : frame) (wcol tcol : string) : correlation_result :=
  let x := map (cell wcol) (rows merged_df) in
  let y := map (cell tcol) (rows merged_df) in
  let corr := _calculate_correlation x y in
  mkCorr corr (_get_correlation_strength corr) (_calculate_p_value x y).

Definition add_if {V} (b : bool) (k : string) (v : V) (m : gmap string V) : gmap string V :=
  if b then <[k := v]> m else m.

Definition correlations_of (merged_df : frame) : gmap string correlation_result :=
  let has := has_column merged_df in
  let correlations := ∅ in
  let correlations :=
    add_if (has "TMAX" && has "traffic_volume") "temperature_traffic"
           (pair_result merged_df "TMAX" "traffic_volume") correlations in
  let correlations :=
    add_if (has "TMIN" && has "traffic_volume") "min_temperature_traffic"
           (pair_result merged_df "TMIN" "traffic_volume") correlations in
  let correlations :=
    add_if (has "PRCP" && has "traffic_volume") "precipitation_traffic"
           (pair_result merged_df "PRCP" "traffic_volume") correlations in
  let correlations :=
    add_if (has "AWND" && has "traffic_volume") "wind_traffic"
           (pair_result merged_df "AWND" "traffic_volume") correlations in
  let correlations :=
    add_if (has "SNOW" && has "traffic_volume") "snow_traffic"
           (pair_result merged_df "SNOW" "traffic_volume") correlations in
  let correlations :=
    add_if (has "avg_speed" && has "TMAX") "temperature_speed"
           (pair_result merged_df "TMAX" "avg_speed") correlations in
  let correlations :=
    add_if (has "avg_speed" && has "PRCP") "precipitation_speed"
           (pair_result merged_df "PRCP" "avg_speed") correlations in
  correlations.

(** [weather_df['date'] = pd.to_datetime(weather_df['date'])], on the
    caller's object. *)
Definition coerce_weather_date : M caller unit :=
  (s <~ mget ;;
   dates <~ mlift (to_datetime (weather_df s)) ;;
   mmodify (fun s => mkCaller (assign_date (weather_df s) dates) (traffic_df s)))%state.

Definition coerce_traffic_date : M caller unit :=
  (s <~ mget ;;
   dates <~ mlift (to_datetime (traffic_df s)) ;;
   mmodify (fun s => mkCaller (weather_df s) (assign_date (traffic_df s) dates)))%state.

(** The merge shared by the two analyses. *)
Definition merged_frames : M caller frame :=
  (coerce_weather_date ;;;
   coerce_traffic_date ;;;
   s <~ mget ;;
   mlift (merge (weather_df s) (traffic_df s)))%state.

Definition analyze_weather_traffic_correlation
  : M caller (gmap string correlation_result) :=
  (s <~ mget ;;
   if empty (weather_df s) || empty (traffic_df s) then mret ∅
   else
     mtry (merged_df <~ merged_frames ;;
           if empty merged_df then mret ∅
           else mret (correlations_of merged_df))
          (fun _ => mret ∅))%state.

(** ** Impact of extreme weather *)

(** A float that a division can leave infinite. *)
Inductive float :=
| Finite (q : Q)
| Infinity (negative : bool)
| FNaN.

Definition of_num (v : num) : float :=
  match v with
  | Some q => Finite q
  | None => FNaN
  end.

Definition fsub (a b : float) : float :=
  match a, b with
  | Finite x, Finite y => Finite (x - y)%Q
  | Infinity s, Finite _ => Infinity s
  | Finite _, Infinity s => Infinity (negb s)
  | Infinity s, Infinity s' => if Bool.eqb s s' then FNaN else Infinity s
  | _, _ => FNaN
  end.

Definition Qneg_bool (q : Q) : bool := Qlt_bool q 0.

(** Float division: a zero divisor gives an infinity or NaN, never an
    exception. *)
Definition fdiv (a b : float) : float :=
  match a, b with
  | Finite x, Finite y =>
      if Qeq_bool y 0 then
        if Qeq_bool x 0 then FNaN else Infinity (Qneg_bool x)
      else Finite (x / y)%Q
  | Infinity s, Finite y => Infinity (xorb s (Qneg_bool y))
  | Finite _, Infinity _ => Finite 0%Q
  | _, _ => FNaN
  end.

Definition fmul (a b : float) : float :=
  match a, b with
  | Finite x, Finite y => Finite (x * y)%Q
  | Infinity s, Finite y => if Qeq_bool y 0 then FNaN else Infinity (xorb s (Qneg_bool y))
  | Finite x, Infinity s => if Qeq_bool x 0 then FNaN else Infinity (xorb s (Qneg_bool x))
  | Infinity s, Infinity s' => Infinity (xorb s s')
  | _, _ => FNaN
  end.

Record impact_result := mkImpact {
  avg_traffic_extreme : num;
  avg_traffic_normal : num;
  traffic_reduction : float;
  extreme_days : nat
}.

(** One condition of [analyze_extreme_weather_impact]. *)
Definition impact_of (merged_df : frame) (column : string) (threshold : Q)
  : option impact_result :=
  let extreme_days :=
    List.filter (fun r => num_gt (cell column r) (Some threshold)) (rows merged_df) in
  let normal_days :=
    List.filter (fun r => num_le (cell column r) (Some threshold)) (rows merged_df) in
  if Nat.ltb 0 (length extreme_days) && Nat.ltb 0 (length normal_days) then
    let avg_extreme := series_mean (map (cell "traffic_volume") extreme_days) in
    let avg_normal := series_mean (map (cell "traffic_volume") normal_days) in
    Some (mkImpact avg_extreme avg_normal
            (fmul (fdiv (fsub (of_num avg_normal) (of_num avg_extreme)) (of_num avg_normal))
                  (Finite 100%Q))
            (length extreme_days))
  else None.

Definition add_impact (merged_df : frame) (column : string) (threshold : Q)
    (k : string) (m : gmap string impact_result) : gmap string impact_result :=
  if has_column merged_df column && has_column merged_df "traffic_volume" then
    match impact_of merged_df column threshold with
    | Some r => <[k := r]> m
    | None => m
    end
  else m.

Definition impacts_of (merged_df : frame) : gmap string impact_result :=
  let impact_analysis := ∅ in
  let impact_analysis := add_impact merged_df "TMAX" 90%Q "heatwave_impact" impact_analysis in
  let impact_analysis := add_impact merged_df "PRCP" 2%Q "heavy_rain_impact" impact_analysis in
  let impact_analysis := add_impact merged_df "SNOW" 6%Q "snowstorm_impact" impact_analysis in
  let impact_analysis := add_impact merged_df "AWND" 20%Q "high_wind_impact" impact_analysis in
  impact_analysis.

Definition analyze_extreme_weather_impact : M caller (gmap string impact_result) :=
  (s <~ mget ;;
   if empty (weather_df s) || empty (traffic_df s) then mret ∅
   else
     mtry (merged_df <~ merged_frames ;;
           if empty merged_df then mret ∅
           else mret (impacts_of merged_df))
          (fun _ => mret ∅))%state.

End Core.

(** ** A concrete calendar for examples

    Dates written [YYYY-MM-DD]; the timestamp of a date is the number
    [yyyymmdd], which orders dates as the calendar does. *)
Module Iso.

Definition digit (c : ascii) : option Z :=
  let n := Z.of_nat (nat_of_ascii c) in
  if (48 <=? n)%Z && (n <=? 57)%Z then Some (n - 48)%Z else None.

Fixpoint number (acc : Z) (l : list ascii) : option Z :=
  match l with
  | [] => Some acc
  | c :: t =>
      match digit c with
      | Some d => number (acc * 10 + d)%Z t
      | None => None
      end
  end.

Definition to_timestamp (s : string) : option Z :=
  match list_ascii_of_string s with
  | [y1; y2; y3; y4; s1; m1; m2; s2; d1; d2] =>
      if Ascii.eqb s1 "-" && Ascii.eqb s2 "-" then
        match number 0 [y1; y2; y3; y4], number 0 [m1; m2], number 0 [d1; d2] with
        | Some y, Some m, Some d =>
            if (1 <=? m)%Z && (m <=? 12)%Z && (1 <=? d)%Z && (d <=? 31)%Z
            then Some (y * 10000 + m * 100 + d)%Z
            else None
        | _, _, _ => None
        end
      else None
  | _ => None
  end.

Definition digit_char (d : Z) : ascii := ascii_of_nat (48 + Z.to_nat (d mod 10)).

Definition digits (n : nat) (v : Z) : string :=
  string_of_list_ascii
    (List.rev (map (fun i => digit_char (v / 10 ^ Z.of_nat i)) (seq 0 n))).

Definition strftime (t : Z) : string :=
  (digits 4 (t / 10000) ++ "-" ++ digits 2 (t / 100 mod 100) ++ "-" ++ digits 2 (t mod 100))%string.

(** Stand-ins for the numerical routines, for inputs that never reach
    them (fewer than two paired observations). *)
Definition series_corr (x y : list Q) : result num := Ok None.
Definition pearsonr_p_value (x y : list Q) : result num := Ok None.

End Iso.

(** ** Sample inputs *)
Module Sample.

Definition blank (d : datecell) : row :=
  mkRow d None None None None None None None None.

Definition with_TMAX (v : num) (r : row) : row :=
  mkRow (r_date r) v (r_TMIN r) (r_TAVG r) (r_PRCP r) (r_AWND r) (r_SNOW r)
        (r_traffic_volume r) (r_avg_speed r).
Definition with_PRCP (v : num) (r : row) : row :=
  mkRow (r_date r) (r_TMAX r) (r_TMIN r) (r_TAVG r) v (r_AWND r) (r_SNOW r)
        (r_traffic_volume r) (r_avg_speed r).
Definition with_AWND (v : num) (r : row) : row :=
  mkRow (r_date r) (r_TMAX r) (r_TMIN r) (r_TAVG r) (r_PRCP r) v (r_SNOW r)
        (r_traffic_volume r) (r_avg_speed r).
Definition with_traffic_volume (v : num) (r : row) : row :=
  mkRow (r_date r) (r_TMAX r) (r_TMIN r) (r_TAVG r) (r_PRCP r) (r_AWND r) (r_SNOW r)
        v (r_avg_speed r).

Definition tmax_row (d : datecell) (v : Z) : row := with_TMAX (Some (inject_Z v)) (blank d).
Definition prcp_row (d : datecell) (v : Z) : row := with_PRCP (Some (inject_Z v)) (blank d).
Definition wind_row (d : datecell) (v : Z) : row := with_AWND (Some (inject_Z v)) (blank d).
Definition traffic_row (d : datecell) (v : Z) : row :=
  with_traffic_volume (Some (inject_Z v)) (blank d).

(** Four days of maximum temperature 60..63, already in date order. *)
Definition four_days : frame :=
  mkFrame ["date"; "TMAX"]
    [tmax_row (Timestamp 20240101) 60; tmax_row (Timestamp 20240102) 61;
     tmax_row (Timestamp 20240103) 62; tmax_row (Timestamp 20240104) 63].

(** The same date twice. *)
Definition same_day_twice : frame :=
  mkFrame ["date"; "PRCP"]
    [prcp_row (DateStr "2024-01-01") 0; prcp_row (DateStr "2024-01-01") 1].

(** Out of order, with a date that does not parse. *)
Definition unparseable : frame :=
  mkFrame ["date"; "PRCP"]
    [prcp_row (Timestamp 20240102) 0; prcp_row (Timestamp 20240101) 0;
     prcp_row (DateStr "not a date") 0].

(** A missing maximum temperature next to a date that does not parse. *)
Definition missing_tmax : frame :=
  mkFrame ["date"; "TMAX"]
    [tmax_row (DateStr "2024-01-01") 70;
     with_TMAX None (blank (DateStr "2024-01-02"));
     tmax_row (DateStr "not a date") 71].

(** Three string dates, unordered, without temperature columns. *)
Definition rain_days : frame :=
  mkFrame ["date"; "PRCP"]
    [prcp_row (DateStr "2024-01-03") 1; prcp_row (DateStr "2024-01-01") 0;
     prcp_row (DateStr "2024-01-02") 3].

(** Temperatures with one missing value, all dates parse. *)
Definition temps_with_gap : frame :=
  mkFrame ["date"; "TMAX"]
    [tmax_row (DateStr "2024-01-02") 71;
     with_TMAX None (blank (DateStr "2024-01-01"));
     tmax_row (DateStr "2024-01-03") 70].

(** No temperature column at all. *)
Definition rain_only : frame :=
  mkFrame ["date"; "PRCP"] [prcp_row (Timestamp 20240101) 3].

(** Three hot days whose dates are still strings. *)
Definition raw_heat : frame :=
  mkFrame ["date"; "TMAX"; "PRCP"]
    [with_PRCP (Some 3%Q) (tmax_row (DateStr "2024-01-01") 91);
     with_PRCP (Some 0%Q) (tmax_row (DateStr "2024-01-02") 91);
     with_PRCP (Some 0%Q) (tmax_row (DateStr "2024-01-03") 91)].

Definition heat (n : nat) : frame :=
  mkFrame ["date"; "TMAX"]
    (map (fun i => tmax_row (Timestamp (20240101 + Z.of_nat i)) 91) (seq 0 n)).

(** Wind exactly at, just below and just above the extreme threshold. *)
Definition wind_at (v : Z) : frame :=
  mkFrame ["date"; "AWND"] [wind_row (Timestamp 20240101) v].

(** Weather and traffic with string dates; traffic is zero on the
    normal day. *)
Definition hot_then_mild : frame :=
  mkFrame ["date"; "TMAX"]
    [tmax_row (DateStr "2024-01-01") 95; tmax_row (DateStr "2024-01-02") 70].
Definition idle_normal_day : frame :=
  mkFrame ["date"; "traffic_volume"]
    [traffic_row (DateStr "2024-01-01") 100; traffic_row (DateStr "2024-01-02") 0].

(** Traffic halved on the hot day. *)
Definition half_traffic : frame :=
  mkFrame ["date"; "traffic_volume"]
    [traffic_row (DateStr "2024-01-01") 50; traffic_row (DateStr "2024-01-02") 100].

(** A single traffic count whose date is already a Timestamp. *)
Definition one_count : frame :=
  mkFrame ["date"; "traffic_volume"] [traffic_row (Timestamp 20240103) 100].

(** One day on both sides. *)
Definition one_hot_day : frame :=
  mkFrame ["date"; "TMAX"] [tmax_row (DateStr "2024-01-01") 95].
Definition one_traffic_day : frame :=
  mkFrame ["date"; "traffic_volume"] [traffic_row (DateStr "2024-01-01") 100].

(** A traffic table that itself carries a TMAX column, next to a weather
    table without one. *)
Definition weather_without_tmax : frame :=
  mkFrame ["date"; "PRCP"] [prcp_row (DateStr "2024-01-01") 0].
Definition traffic_with_tmax : frame :=
  mkFrame ["date"; "traffic_volume"; "TMAX"]
    [with_TMAX (Some 70%Q) (traffic_row (DateStr "2024-01-01") 100)].

End Sample.

(** ** Properties of results *)

(** The value under key [k] of a returned dictionary. *)
Definition returned_at {V} (k : string) (r : result (gmap string V)) : option V :=
  match r with
  | Ok m => m !! k
  | Raise _ => None
  end.

Definition is_timestamp (d : datecell) : Prop := exists t, d = Timestamp t.

(** Every date is a Timestamp and timestamps do not decrease. *)
Definition sorted_by_date (rs : list row) : Prop :=
  Forall (fun r => is_timestamp (r_date r)) rs /\
  StronglySorted (fun a b => (ts_key (r_date a) <= ts_key (r_date b))%Z) rs.

Definition no_duplicate_dates (rs : list row) : Prop := NoDup (map r_date rs).

(** A date that [pd.to_datetime] accepts. *)
Definition parses (to_timestamp : string -> option Z) (d : datecell) : Prop :=
  match d with
  | DateStr s => is_Some (to_timestamp s)
  | _ => True
  end.

(** A series as [clean_weather_data] leaves it when it completes: a date
    column holding Timestamps only. *)
Definition cleaned (df : frame) : Prop :=
  has_column df "date" = true /\ Forall (fun r => is_timestamp (r_date r)) (rows df).

Definition finite (f : float) : Prop := exists q, f = Finite q.

(** The column each event category is computed from. *)
Definition category_source : list (string * string) :=
  [("heatwaves", "TMAX"); ("cold_spells", "TMIN"); ("heavy_rainfall", "PRCP");
   ("snowstorms", "SNOW"); ("high_winds", "AWND"); ("drought_periods", "PRCP")].

(** A step of the detector that leaves the entry of key [k] alone,
    whether it completes or raises. *)
Definition preserves {A} (k : string) (m : M (gmap string (list event)) A) : Prop :=
  forall s, snd (m s) !! k = s !! k.

(** The conditions of the impact analysis: key, column, threshold. *)
Definition impact_conditions : list (string * string * Q) :=
  [("heatwave_impact", "TMAX", 90%Q); ("heavy_rain_impact", "PRCP", 2%Q);
   ("snowstorm_impact", "SNOW", 6%Q); ("high_wind_impact", "AWND", 20%Q)].

(** The pairs of the correlation analysis: key, weather column, traffic
    column. *)
Definition correlation_pairs : list (string * string * string) :=
  [("temperature_traffic", "TMAX", "traffic_volume");
   ("min_temperature_traffic", "TMIN", "traffic_volume");
   ("precipitation_traffic", "PRCP", "traffic_volume");
   ("wind_traffic", "AWND", "traffic_volume");
   ("snow_traffic", "SNOW", "traffic_volume");
   ("temperature_speed", "TMAX", "avg_speed");
   ("precipitation_speed", "PRCP", "avg_speed")].

(** The first stage of [clean_weather_data]: date coercion and removal
    of rows without a date. *)
Definition coerce_dates (to_timestamp : string -> option Z) (df : frame) : result frame :=
  (cleaned_df <-
     (if has_column df "date"
      then dates <- to_datetime to_timestamp df ;; Ok (assign_date df dates)
      else Ok df) ;;
   dropna_date cleaned_df)%result.

(** The remaining stages: outlier trimming, sign constraints, sorting. *)
Definition filter_and_sort (df : frame) : frame :=
  let cleaned_df := fold_left (fun d col => trim_outliers col d) temp_cols df in
  let cleaned_df := drop_negative "PRCP" cleaned_df in
  let cleaned_df := drop_negative "AWND" cleaned_df in
  with_rows cleaned_df (sort_values_date (rows cleaned_df)).

Definition date_le (a b : row) : Prop := (ts_key (r_date a) <= ts_key (r_date b))%Z.

(** The test behind a comparison operator of
    [_detect_consecutive_events]. *)
Definition comparison_test (comparison : string) (threshold : Q) : option (num -> bool) :=
  if String.eqb comparison ">" then Some (fun v => num_gt v (Some threshold))
  else if String.eqb comparison "<" then Some (fun v => num_lt v (Some threshold))
  else if String.eqb comparison "==" then Some (fun v => num_eq v (Some threshold))
  else if String.eqb comparison ">=" then Some (fun v => num_ge v (Some threshold))
  else if String.eqb comparison "<=" then Some (fun v => num_le v (Some threshold))
  else None.

(** The run categories of [detect_extreme_events]: key, column,
    threshold, minimum length, comparison. *)
Definition run_categories : list (string * string * Q * nat * string) :=
  [("heatwaves", "TMAX", 90%Q, 3%nat, ">");
   ("cold_spells", "TMIN", 32%Q, 3%nat, "<");
   ("drought_periods", "PRCP", 0%Q, 7%nat, "==")].

(** Position by position, whether the mask differs from the value
    before it. *)
Fixpoint changes (prev : bool) (l : list bool) : list bool :=
  match l with
  | [] => []
  | c :: t => xorb c prev :: changes c t
  end.

(** Group ids continuing from id [a] after a position of value [prev]. *)
Definition ids_from (a : nat) (prev : bool) (l : list bool) : list nat :=
  cumsum a (changes prev l).

(** The event of a group of rows whose dates are Timestamps. *)
Definition run_event_pure (strftime : Z -> string) (column : string) (g : list row)
  : run_event :=
  mkRun (strftime (ts_key (r_date (hd (Sample.blank NaT) g))))
        (strftime (ts_key (r_date (List.last g (Sample.blank NaT)))))
        (length g)
        (series_max (map (cell column) g))
        (series_min (map (cell column) g))
        (series_mean (map (cell column) g)).

(** What one group id contributes to the result. *)
Definition per_group (strftime : Z -> string) (column : string) (minc : nat)
    (rs : list row) (mask : list bool) (ids : list nat) (k : nat) : list run_event :=
  if Nat.leb minc (group_count mask ids k) then
    if Nat.leb minc (length (group_rows rs ids k))
    then [run_event_pure strftime column (group_rows rs ids k)]
    else []
  else [].

(** Whether a value meets the rule of a run category. *)
Definition qualifies (comparison : string) (threshold : Q) (v : num) : bool :=
  match comparison_test comparison threshold with
  | Some test => test v
  | None => false
  end.

(** A record once [pd.to_datetime] has coerced its date: the date is
    replaced by what the coercion returns for it, every measurement stays
    as it was. *)
Definition coerce_record (to_timestamp : string -> option Z) (r : row) : row :=
  match to_datetime_cell to_timestamp (r_date r) with
  | Ok d => set_date d r
  | Raise _ => r
  end.

(** The six keys of the detector's dictionary. *)
Definition category_keys : gset string := list_to_set (map fst category_source).

(** A step of the detector that neither adds nor removes a key. *)
Definition keeps_keys {A} (D : gset string) (m : M (gmap string (list event)) A) : Prop :=
  forall s, dom s = D -> dom (snd (m s)) = D.

(** The point categories of [detect_extreme_events]: key, name of the
    measurement in the event, column, threshold. *)
Definition point_categories : list (string * string * string * Q) :=
  [("heavy_rainfall", "precipitation", "PRCP", 2%Q);
   ("snowstorms", "snowfall", "SNOW", 6%Q);
   ("high_winds", "wind_speed", "AWND", 20%Q)].

(** The severity label of a point event. *)
Definition point_severity (key : string) (day : row) : string :=
  if String.eqb key "heavy_rainfall" then "heavy"
  else if String.eqb key "snowstorms" then "storm"
  else if num_lt (cell "AWND" day) (Some 50%Q) then "high" else "extreme".

(** The event of one record of a cleaned series. *)
Definition point_event_of (strftime : Z -> string) (key field col : string) (day : row)
  : event :=
  PointEvent (mkPoint (strftime (ts_key (r_date day))) field (cell col day)
                      (point_severity key day)).

(** A computation that leaves state [s] as it found it, whether it
    completes or raises. *)
Definition stuck {S A} (m : M S A) (s : S) : Prop := snd (m s) = s.

(** ** Weather statistics ([calculate_weather_statistics]) *)

(** A value of the statistics dictionary: a float, a count or a text. *)
Inductive stat :=
| Number (v : num)
| Count (n : nat)
| Text (s : string).

(** [Series.sum()]: NaN is skipped, the empty sum is 0. *)
Definition series_sum (col : list num) : num := Some (Qsum (valid col)).

(** [len(df[mask])] *)
Definition count_rows (f : row -> bool) (df : frame) : nat :=
  length (List.filter f (rows df)).

Definition is_datetime (d : datecell) : bool :=
  match d with
  | DateStr _ => false
  | _ => true
  end.

Definition timestamps (ds : list datecell) : list Z :=
  omap (fun d => match d with
                 | Timestamp t => Some t
                 | _ => None
                 end) ds.

Section Statistics.

Variable strftime : Z -> string.

(** [Series.std()], the difference of two numpy scalars (float64 rounds
    it, int64 wraps around), and the minimum and maximum of a date column
    that still holds strings: library routines, taken as they are. *)
Variable series_std : list num -> num.
Variable scalar_sub : num -> num -> num.
Variable object_min : list datecell -> result datecell.
Variable object_max : list datecell -> result datecell.

(** [df['date'].min()] and [df['date'].max()]: over a column of Timestamps
    NaT is skipped, and the result is NaT when nothing is left. *)
Definition date_min (df : frame) : result datecell :=
  if has_column df "date" then
    let ds := map r_date (rows df) in
    if forallb is_datetime ds then
      Ok (match timestamps ds with
          | [] => NaT
          | t :: ts => Timestamp (fold_left Z.min ts t)
          end)
    else object_min ds
  else Raise KeyError.

Definition date_max (df : frame) : result datecell :=
  if has_column df "date" then
    let ds := map r_date (rows df) in
    if forallb is_datetime ds then
      Ok (match timestamps ds with
          | [] => NaT
          | t :: ts => Timestamp (fold_left Z.max ts t)
          end)
    else object_max ds
  else Raise KeyError.

Definition temperature_stats (df : frame) : gmap string stat :=
  let col := map (cell "TMAX") (rows df) in
  list_to_map
    [("max_temp", Number (series_max col));
     ("min_temp", Number (series_min col));
     ("avg_temp", Number (series_mean col));
     ("std_temp", Number (series_std col));
     ("temp_range", Number (scalar_sub (series_max col) (series_min col)))].

Definition min_temperature_stats (df : frame) : gmap string stat :=
  let col := map (cell "TMIN") (rows df) in
  list_to_map
    [("max_min_temp", Number (series_max col));
     ("min_min_temp", Number (series_min col));
     ("avg_min_temp", Number (series_mean col))].

Definition precipitation_stats (df : frame) : gmap string stat :=
  let col := map (cell "PRCP") (rows df) in
  list_to_map
    [("total_precip", Number (series_sum col));
     ("max_daily_precip", Number (series_max col));
     ("avg_precip", Number (series_mean col));
     ("rainy_days", Count (count_rows (fun r => num_gt (cell "PRCP" r) (Some 0%Q)) df));
     ("heavy_rain_days",
      Count (count_rows
               (fun r => num_gt (cell "PRCP" r) (Some (extreme_thresholds "heavy_rain"))) df))].

Definition wind_stats (df : frame) : gmap string stat :=
  let col := map (cell "AWND") (rows df) in
  list_to_map
    [("max_wind", Number (series_max col));
     ("avg_wind", Number (series_mean col));
     ("high_wind_days",
      Count (count_rows
               (fun r => num_gt (cell "AWND" r) (Some (extreme_thresholds "high_wind"))) df));
     ("extreme_wind_days",
      Count (count_rows
               (fun r => num_gt (cell "AWND" r) (Some (extreme_thresholds "extreme_wind"))) df))].

Definition snow_stats (df : frame) : gmap string stat :=
  let col := map (cell "SNOW") (rows df) in
  list_to_map
    [("total_snow", Number (series_sum col));
     ("max_daily_snow", Number (series_max col));
     ("snowy_days", Count (count_rows (fun r => num_gt (cell "SNOW" r) (Some 0%Q)) df));
     ("snowstorm_days",
      Count (count_rows
               (fun r => num_gt (cell "SNOW" r) (Some (extreme_thresholds "snowstorm"))) df))].

(** The [date_range] entry; it raises when a date cannot be formatted. *)
Definition date_range_stats (df : frame) : result (gmap string stat) :=
  (d0 <- date_min df ;;
   start_date <- strftime_cell strftime d0 ;;
   d1 <- date_max df ;;
   end_date <- strftime_cell strftime d1 ;;
   Ok (list_to_map
         [("start_date", Text start_date);
          ("end_date", Text end_date);
          ("total_days", Count (length (rows df)))]))%result.

Definition statistics_body (df : frame) : M (gmap string (gmap string stat)) unit :=
  (when_ (has_column df "TMAX") (mmodify (insert "temperature" (temperature_stats df))) ;;;
   when_ (has_column df "TMIN")
     (mmodify (insert "min_temperature" (min_temperature_stats df))) ;;;
   when_ (has_column df "PRCP") (mmodify (insert "precipitation" (precipitation_stats df))) ;;;
   when_ (has_column df "AWND") (mmodify (insert "wind" (wind_stats df))) ;;;
   when_ (has_column df "SNOW") (mmodify (insert "snow" (snow_stats df))) ;;;
   range <~ mlift (date_range_stats df) ;;
   mmodify (insert "date_range" range))%state.

Definition calculate_weather_statistics (df : frame)
  : result (gmap string (gmap string stat)) :=
  let stats := ∅ in
  if empty df then Ok stats
  else fst (mtry (statistics_body df ;;; mget)%state (fun _ => mget) stats).

End Statistics.

(** The value under [key] of the section [name] of returned statistics. *)
Definition stat_at (name key : string) (r : result (gmap string (gmap string stat)))
  : option stat :=
  match returned_at name r with
  | Some section => section !! key
  | None => None
  end.

(** Pairs of counts of one section: column, section, the count over the
    higher threshold, the count over the lower one. *)
Definition nested_counts : list (string * string * string * string) :=
  [("PRCP", "precipitation", "heavy_rain_days", "rainy_days");
   ("AWND", "wind", "extreme_wind_days", "high_wind_days");
   ("SNOW", "snow", "snowstorm_days", "snowy_days")].

(** A point category of the detector and the count that matches it in
    the statistics: key, column, section, count. *)
Definition matching_counts : list (string * string * string * string) :=
  [("heavy_rainfall", "PRCP", "precipitation", "heavy_rain_days");
   ("snowstorms", "SNOW", "snow", "snowstorm_days");
   ("high_winds", "AWND", "wind", "high_wind_days")].

(** Missing together, or present and in order. *)
Definition ordered (a b : num) : Prop :=
  match a, b with
  | Some x, Some y => (x <= y)%Q
  | None, None => True
  | _, _ => False
  end.

(** The statistics dictionary as it stands before the date range is added. *)
Definition sections (series_std : list num -> num) (scalar_sub : num -> num -> num)
    (df : frame) : gmap string (gmap string stat) :=
  let s := ∅ in
  let s := if has_column df "TMAX"
           then <["temperature" := temperature_stats series_std scalar_sub df]> s else s in
  let s := if has_column df "TMIN"
           then <["min_temperature" := min_temperature_stats df]> s else s in
  let s := if has_column df "PRCP" then <["precipitation" := precipitation_stats df]> s else s in
  let s := if has_column df "AWND" then <["wind" := wind_stats df]> s else s in
  let s := if has_column df "SNOW" then <["snow" := snow_stats df]> s else s in
  s.

(** The sections holding both a smallest and a largest value: column,
    section, key of the smallest, key of the largest. *)
Definition extreme_pairs : list (string * string * string * string) :=
  [("TMAX", "temperature", "min_temp", "max_temp");
   ("TMIN", "min_temperature", "min_min_temp", "max_min_temp")].

(** The four core operations never raise. *)
Lemma mtry_total {S A} (body : M S A) (handler : exn -> M S A) (s : S) :
  (forall e s', exists a s'', handler e s' = (Ok a, s'')) ->
  exists a s', mtry body handler s = (Ok a, s').
Proof.
  intros Hh. unfold mtry. destruct (body s) as [[a|e] s'].
  - eauto.
  - apply Hh.
Qed.

(** C1: for every input, [clean_weather_data], [detect_extreme_events],
    [analyze_weather_traffic_correlation] and
    [analyze_extreme_weather_impact] return a value ([Ok]) and never an
    exception ([Raise]); the value is a frame, a dictionary of event
    lists, and dictionaries of correlation and impact results. *)
Theorem core_operations_never_raise
    (to_timestamp : string -> option Z) (strftime : Z -> string)
    (series_corr pearsonr_p_value : list Q -> list Q -> result num)
    (df weather traffic : frame) :
  (exists out : frame, clean_weather_data to_timestamp df = Ok out) /\
  (exists events : gmap string (list event),
      detect_extreme_events strftime df = Ok events) /\
  (exists (m : gmap string correlation_result) (s : caller),
      analyze_weather_traffic_correlation to_timestamp series_corr pearsonr_p_value
        (mkCaller weather traffic) = (Ok m, s)) /\
  (exists (m : gmap string impact_result) (s : caller),
      analyze_extreme_weather_impact to_timestamp (mkCaller weather traffic) = (Ok m, s)).
Proof.
  repeat split.
  - unfold clean_weather_data. destruct (empty df); [eauto|].
    destruct (clean_body to_timestamp df); simpl; eauto.
  - unfold detect_extreme_events. destruct (empty df); [eauto|].
    destruct (mtry_total (detect_body strftime df ;;; mget)%state (fun _ => mget) initial_events)
      as (a & s' & ->); [|simpl; eauto].
    intros; unfold mget; eauto.
  - unfold analyze_weather_traffic_correlation, mbind at 1. simpl.
    destruct (empty weather || empty traffic); [unfold mret; eauto|].
    apply mtry_total. intros; unfold mret; eauto.
  - unfold analyze_extreme_weather_impact, mbind at 1. simpl.
    destruct (empty weather || empty traffic); [unfold mret; eauto|].
    apply mtry_total. intros; unfold mret; eauto.
Qed.

(** ** The detector's dictionary *)

Lemma preserves_ret {A} k (a : A) : preserves k (mret a).
Proof. intros s. reflexivity. Qed.

Lemma preserves_lift {A} k (r : result A) : preserves k (mlift r).
Proof. intros s. reflexivity. Qed.

Lemma preserves_bind {A B} k (m : M (gmap string (list event)) A)
    (f : A -> M (gmap string (list event)) B) :
  preserves k m -> (forall a, preserves k (f a)) -> preserves k (mbind m f).
Proof.
  intros Hm Hf s. unfold mbind. specialize (Hm s).
  destruct (m s) as [[a|e] s']; simpl in *.
  - rewrite Hf. exact Hm.
  - exact Hm.
Qed.

Lemma preserves_when k b (m : M (gmap string (list event)) unit) :
  preserves k m -> preserves k (when_ b m).
Proof. destruct b; simpl; [auto | intros _; apply preserves_ret]. Qed.

Lemma preserves_mfor {A} k (l : list A) (body : A -> M (gmap string (list event)) unit) :
  (forall a, preserves k (body a)) -> preserves k (mfor l body).
Proof.
  intros Hb. induction l as [|a l IH]; simpl.
  - apply preserves_ret.
  - apply preserves_bind; auto.
Qed.

Lemma preserves_insert k k' v :
  k <> k' -> preserves k (mmodify (insert k' v)).
Proof. intros Hne s. simpl. apply lookup_insert_ne. congruence. Qed.

Lemma preserves_append k k' e :
  k <> k' -> preserves k (mmodify (append_event k' e)).
Proof.
  intros Hne s. simpl. unfold append_event.
  destruct (s !! k'); [|reflexivity].
  apply lookup_insert_ne. congruence.
Qed.

Lemma preserves_point_events strftime k df key field column selected severity :
  k <> key -> preserves k (point_events strftime df key field column selected severity).
Proof.
  intros Hne. unfold point_events. apply preserves_mfor. intros day.
  apply preserves_bind; [apply preserves_lift|]. intros d.
  apply preserves_bind; [apply preserves_lift|]. intros s.
  apply preserves_append, Hne.
Qed.

Create HintDb detector.
#[local] Hint Resolve preserves_ret preserves_when preserves_insert
  preserves_point_events : detector.
#[local] Hint Extern 1 (_ <> _) => discriminate : detector.

(** A sequence of detector steps, none of which writes the key. *)
Ltac preserved :=
  repeat (apply preserves_bind; [|intros _]); auto with detector.

Lemma detect_result strftime df :
  empty df = false ->
  detect_extreme_events strftime df = Ok (snd (detect_body strftime df initial_events)).
Proof.
  intros He. unfold detect_extreme_events. rewrite He.
  unfold mtry, mbind, mget.
  destruct (detect_body strftime df initial_events) as [[[]|e] s]; reflexivity.
Qed.

(** C6 (as the code has it): for every non-empty series that lacks the
    source column of a category, the dictionary returned by
    [detect_extreme_events] still has that category's key, bound to the
    empty list. *)
Theorem missing_column_gives_empty_list
    (strftime : Z -> string) (df : frame) (key col : string) :
  In (key, col) category_source ->
  empty df = false ->
  has_column df col = false ->
  returned_at key (detect_extreme_events strftime df) = Some [].
Proof.
  intros Hin He Hc. rewrite (detect_result _ _ He). simpl returned_at.
  assert (Hinit : initial_events !! key = Some []).
  { simpl in Hin. destruct Hin as [E|[E|[E|[E|[E|[E|[]]]]]]];
      inversion E; subst; vm_compute; reflexivity. }
  rewrite <- Hinit.
  assert (Hp : preserves key (detect_body strftime df)); [|apply Hp].
  unfold detect_body.
  simpl in Hin. destruct Hin as [E|[E|[E|[E|[E|[E|[]]]]]]];
    inversion E; subst; rewrite !Hc; simpl when_; preserved.
Qed.

Lemma missing_column_gives_empty_list_witness :
  returned_at "heatwaves" (detect_extreme_events Iso.strftime Sample.rain_only) = Some [].
Proof.
  apply (missing_column_gives_empty_list Iso.strftime Sample.rain_only "heatwaves" "TMAX").
  - simpl. auto.
  - reflexivity.
  - reflexivity.
Defined.

(** C6 fails as stated: a non-empty series without a TMAX column still
    yields the key [heatwaves]. *)
Lemma missing_column_key_not_omitted :
  returned_at "heatwaves" (detect_extreme_events Iso.strftime Sample.rain_only) <> None.
Proof. vm_compute. discriminate. Qed.

(** C9: on a one-record series, the wind event's severity is ["high"] at
    49 mph and ["extreme"] at 51 mph, and at exactly 50 mph the code
    answers ["extreme"]. *)
Theorem high_wind_severity_at_threshold :
  returned_at "high_winds" (detect_extreme_events Iso.strftime (Sample.wind_at 49))
    = Some [PointEvent (mkPoint "2024-01-01" "wind_speed" (Some 49%Q) "high")] /\
  returned_at "high_winds" (detect_extreme_events Iso.strftime (Sample.wind_at 50))
    = Some [PointEvent (mkPoint "2024-01-01" "wind_speed" (Some 50%Q) "extreme")] /\
  returned_at "high_winds" (detect_extreme_events Iso.strftime (Sample.wind_at 51))
    = Some [PointEvent (mkPoint "2024-01-01" "wind_speed" (Some 51%Q) "extreme")].
Proof. repeat split; vm_compute; reflexivity. Qed.

(** ** The analyzer's dictionaries *)

Lemma analyze_impact_unfold to_timestamp w t :
  analyze_extreme_weather_impact to_timestamp (mkCaller w t) =
  if empty w || empty t then (Ok ∅, mkCaller w t)
  else match merged_frames to_timestamp (mkCaller w t) with
       | (Ok merged_df, s) => (Ok (if empty merged_df then ∅ else impacts_of merged_df), s)
       | (Raise _, s) => (Ok ∅, s)
       end.
Proof.
  unfold analyze_extreme_weather_impact, mbind at 1. simpl.
  destruct (empty w || empty t); [reflexivity|].
  unfold mtry, mbind.
  destruct (merged_frames to_timestamp (mkCaller w t)) as [[m|e] s]; [|reflexivity].
  destruct (empty m); reflexivity.
Qed.

Lemma analyze_correlation_unfold to_timestamp series_corr pearsonr_p_value w t :
  analyze_weather_traffic_correlation to_timestamp series_corr pearsonr_p_value
    (mkCaller w t) =
  if empty w || empty t then (Ok ∅, mkCaller w t)
  else match merged_frames to_timestamp (mkCaller w t) with
       | (Ok merged_df, s) =>
           (Ok (if empty merged_df then ∅
                else correlations_of series_corr pearsonr_p_value merged_df), s)
       | (Raise _, s) => (Ok ∅, s)
       end.
Proof.
  unfold analyze_weather_traffic_correlation, mbind at 1. simpl.
  destruct (empty w || empty t); [reflexivity|].
  unfold mtry, mbind.
  destruct (merged_frames to_timestamp (mkCaller w t)) as [[m|e] s]; [|reflexivity].
  destruct (empty m); reflexivity.
Qed.

Lemma add_impact_lookup merged_df column threshold k k' (m : gmap string impact_result) :
  add_impact merged_df column threshold k m !! k' =
  if String.eqb k k' && has_column merged_df column && has_column merged_df "traffic_volume"
  then match impact_of merged_df column threshold with
       | Some r => Some r
       | None => m !! k'
       end
  else m !! k'.
Proof.
  unfold add_impact. destruct (String.eqb_spec k k') as [->|Hne]; simpl.
  - destruct (has_column merged_df column && has_column merged_df "traffic_volume");
      [|reflexivity].
    destruct (impact_of merged_df column threshold); [apply lookup_insert_eq | reflexivity].
  - destruct (has_column merged_df column && has_column merged_df "traffic_volume");
      [|reflexivity].
    destruct (impact_of merged_df column threshold);
      [apply lookup_insert_ne; congruence | reflexivity].
Qed.

Lemma add_if_lookup {V} b k k' (v : V) (m : gmap string V) :
  add_if b k v m !! k' = if b && String.eqb k k' then Some v else m !! k'.
Proof.
  unfold add_if. destruct b; simpl; [|reflexivity].
  destruct (String.eqb_spec k k') as [->|Hne].
  - apply lookup_insert_eq.
  - apply lookup_insert_ne. congruence.
Qed.

Lemma length_pos_nonempty {A} (l : list A) : l <> [] -> Nat.ltb 0 (length l) = true.
Proof. destruct l; [congruence | reflexivity]. Qed.

Lemma zero_divisor_not_finite (a : float) (q : Q) :
  Qeq q 0 -> ~ finite (fmul (fdiv a (Finite q)) (Finite 100%Q)).
Proof.
  intros Hq [x Hx]. apply Qeq_bool_iff in Hq.
  destruct a as [y|sg|]; simpl in Hx; rewrite ?Hq in Hx.
  - destruct (Qeq_bool y 0); simpl in Hx; discriminate.
  - simpl in Hx. discriminate.
  - discriminate.
Qed.

(** C5 (as the code has it): whenever a condition's column and
    [traffic_volume] are in the joined table and both the extreme and the
    normal subset are non-empty, the condition is in the result of
    [analyze_extreme_weather_impact] even if the normal-day mean is
    exactly zero; the relative change is then the outcome of a float
    division by zero, an infinity or NaN. *)
Theorem zero_normal_mean_is_reported
    (to_timestamp : string -> option Z) (w t merged_df : frame) (s : caller)
    (key col : string) (thr q : Q) :
  In (key, col, thr) impact_conditions ->
  empty w = false -> empty t = false ->
  merged_frames to_timestamp (mkCaller w t) = (Ok merged_df, s) ->
  has_column merged_df col = true ->
  has_column merged_df "traffic_volume" = true ->
  List.filter (fun r => num_gt (cell col r) (Some thr)) (rows merged_df) <> [] ->
  List.filter (fun r => num_le (cell col r) (Some thr)) (rows merged_df) <> [] ->
  series_mean (map (cell "traffic_volume")
                 (List.filter (fun r => num_le (cell col r) (Some thr)) (rows merged_df)))
    = Some q ->
  Qeq q 0 ->
  exists r,
    returned_at key (fst (analyze_extreme_weather_impact to_timestamp (mkCaller w t)))
      = Some r /\
    avg_traffic_normal r = Some q /\
    ~ finite (traffic_reduction r).
Proof.
  intros Hin Hw Ht Hm Hc Htv Hx Hn Hmean Hq.
  rewrite analyze_impact_unfold, Hw, Ht, Hm. simpl.
  assert (He : empty merged_df = false).
  { unfold empty. apply orb_false_iff. split; apply Nat.eqb_neq.
    - destruct (rows merged_df); [simpl in Hx; congruence | simpl; lia].
    - unfold has_column in Hc. destruct (columns merged_df); [discriminate | simpl; lia]. }
  rewrite He.
  assert (Hi : exists r, impact_of merged_df col thr = Some r /\
                         avg_traffic_normal r = Some q /\ ~ finite (traffic_reduction r)).
  { unfold impact_of. rewrite (length_pos_nonempty _ Hx), (length_pos_nonempty _ Hn).
    simpl. eexists. split; [reflexivity|]. simpl. split; [exact Hmean|].
    rewrite Hmean. simpl of_num at 3. apply zero_divisor_not_finite, Hq. }
  destruct Hi as (r & Hr & Hr1 & Hr2). exists r. split; [|auto].
  unfold impacts_of. simpl in Hin.
  destruct Hin as [E|[E|[E|[E|[]]]]]; inversion E; subst;
    rewrite !add_impact_lookup; simpl String.eqb; simpl andb;
    rewrite ?Hc, ?Htv, ?Hr; reflexivity.
Qed.

Lemma zero_normal_mean_is_reported_witness :
  exists r,
    returned_at "heatwave_impact"
      (fst (analyze_extreme_weather_impact Iso.to_timestamp
              (mkCaller Sample.hot_then_mild Sample.idle_normal_day))) = Some r /\
    avg_traffic_normal r = Some 0%Q /\
    ~ finite (traffic_reduction r).
Proof.
  eapply (zero_normal_mean_is_reported Iso.to_timestamp
            Sample.hot_then_mild Sample.idle_normal_day _ _ "heatwave_impact" "TMAX" 90%Q).
  - simpl. auto.
  - reflexivity.
  - reflexivity.
  - vm_compute. reflexivity.
  - reflexivity.
  - reflexivity.
  - vm_compute. discriminate.
  - vm_compute. discriminate.
  - vm_compute. reflexivity.
  - reflexivity.
Defined.

(** C5 fails as stated: with a normal-day mean of exactly zero the
    heatwave condition is reported, with an infinite relative change. *)
Lemma zero_normal_mean_not_omitted :
  returned_at "heatwave_impact"
    (fst (analyze_extreme_weather_impact Iso.to_timestamp
            (mkCaller Sample.hot_then_mild Sample.idle_normal_day)))
  = Some (mkImpact (Some 100%Q) (Some 0%Q) (Infinity true) 1).
Proof. vm_compute. reflexivity. Qed.

Lemma degenerate_correlation series_corr (x y : list num) :
  (length (paired x y) < 2)%nat ->
  _calculate_correlation series_corr x y = Some 0%Q.
Proof.
  intros H. unfold _calculate_correlation.
  apply Nat.ltb_lt in H. rewrite H. reflexivity.
Qed.

Lemma degenerate_p_value pearsonr_p_value (x y : list num) :
  (length (paired x y) < 2)%nat ->
  _calculate_p_value pearsonr_p_value x y = Some 1%Q.
Proof.
  intros H. unfold _calculate_p_value.
  apply Nat.ltb_lt in H. rewrite H. reflexivity.
Qed.

Lemma correlations_lookup series_corr pearsonr_p_value merged_df key wcol tcol :
  In (key, wcol, tcol) correlation_pairs ->
  correlations_of series_corr pearsonr_p_value merged_df !! key =
  if has_column merged_df wcol && has_column merged_df tcol
  then Some (pair_result series_corr pearsonr_p_value merged_df wcol tcol)
  else None.
Proof.
  intros Hin. unfold correlations_of. simpl in Hin.
  destruct Hin as [E|[E|[E|[E|[E|[E|[E|[]]]]]]]]; inversion E; subst;
    rewrite !add_if_lookup; simpl String.eqb; rewrite ?andb_false_r, ?andb_true_r;
    rewrite ?lookup_empty;
    try (destruct (has_column merged_df "avg_speed"), (has_column merged_df "TMAX"),
           (has_column merged_df "PRCP"); reflexivity);
    match goal with
    | |- (if ?b then _ else _) = _ => destruct b; reflexivity
    end.
Qed.

(** C4 (as the code has it): a pair is absent from the result of
    [analyze_weather_traffic_correlation] whenever one of its two columns
    is not a column of the date-joined table, or that table is empty.
    When both columns are there and the joined table is not empty, fewer
    than 2 paired non-missing observations do not omit the pair: it is
    reported with correlation 0.0, strength ["negligible"] and p-value 1.0,
    the values the internal computations return below 2 points. *)
Theorem degenerate_pair_is_reported
    (to_timestamp : string -> option Z)
    (series_corr pearsonr_p_value : list Q -> list Q -> result num)
    (w t merged_df : frame) (s : caller) (key wcol tcol : string) :
  In (key, wcol, tcol) correlation_pairs ->
  empty w = false -> empty t = false ->
  merged_frames to_timestamp (mkCaller w t) = (Ok merged_df, s) ->
  let result :=
    fst (analyze_weather_traffic_correlation to_timestamp series_corr pearsonr_p_value
           (mkCaller w t)) in
  let x := map (cell wcol) (rows merged_df) in
  let y := map (cell tcol) (rows merged_df) in
  (has_column merged_df wcol = false \/ has_column merged_df tcol = false \/
   empty merged_df = true ->
   returned_at key result = None) /\
  ((length (paired x y) < 2)%nat ->
   _calculate_correlation series_corr x y = Some 0%Q /\
   _calculate_p_value pearsonr_p_value x y = Some 1%Q) /\
  (has_column merged_df wcol = true -> has_column merged_df tcol = true ->
   empty merged_df = false -> (length (paired x y) < 2)%nat ->
   returned_at key result = Some (mkCorr (Some 0%Q) "negligible" (Some 1%Q))).
Proof.
  intros Hin Hw Ht Hm result x y. subst result.
  rewrite analyze_correlation_unfold, Hw, Ht, Hm. simpl.
  split; [|split].
  - intros H. destruct (empty merged_df) eqn:He; [apply lookup_empty|].
    rewrite (correlations_lookup _ _ _ _ _ _ Hin).
    destruct H as [H|[H|H]]; [rewrite H | rewrite H | discriminate];
      rewrite ?andb_false_r; reflexivity.
  - intros H. split; [apply degenerate_correlation | apply degenerate_p_value]; exact H.
  - intros Hx Hy He Hlen. rewrite He.
    rewrite (correlations_lookup _ _ _ _ _ _ Hin), Hx, Hy. simpl.
    unfold pair_result. fold x y.
    rewrite (degenerate_correlation _ _ _ Hlen), (degenerate_p_value _ _ _ Hlen).
    reflexivity.
Qed.

Lemma degenerate_pair_is_reported_witness :
  returned_at "temperature_traffic"
    (fst (analyze_weather_traffic_correlation Iso.to_timestamp Iso.series_corr
            Iso.pearsonr_p_value (mkCaller Sample.one_hot_day Sample.one_traffic_day)))
  = Some (mkCorr (Some 0%Q) "negligible" (Some 1%Q)).
Proof.
  eapply (degenerate_pair_is_reported Iso.to_timestamp Iso.series_corr Iso.pearsonr_p_value
            Sample.one_hot_day Sample.one_traffic_day _ _
            "temperature_traffic" "TMAX" "traffic_volume").
  - simpl. auto.
  - reflexivity.
  - reflexivity.
  - vm_compute. reflexivity.
  - reflexivity.
  - reflexivity.
  - reflexivity.
  - vm_compute. lia.
Defined.

(** C4 fails as stated: with a single paired observation the pair
    [temperature_traffic] is reported, not omitted; and a weather table
    without TMAX does not omit it either when the traffic table carries a
    TMAX column. *)
Lemma degenerate_pair_not_omitted :
  returned_at "temperature_traffic"
    (fst (analyze_weather_traffic_correlation Iso.to_timestamp Iso.series_corr
            Iso.pearsonr_p_value (mkCaller Sample.one_hot_day Sample.one_traffic_day)))
  = Some (mkCorr (Some 0%Q) "negligible" (Some 1%Q)) /\
  has_column Sample.weather_without_tmax "TMAX" = false /\
  returned_at "temperature_traffic"
    (fst (analyze_weather_traffic_correlation Iso.to_timestamp Iso.series_corr
            Iso.pearsonr_p_value
            (mkCaller Sample.weather_without_tmax Sample.traffic_with_tmax)))
  = Some (mkCorr (Some 0%Q) "negligible" (Some 1%Q)).
Proof. repeat split; vm_compute; reflexivity. Qed.

(** C8: both analyses rewrite the date column of the caller's tables.
    Called on tables whose dates are strings, they leave Timestamps
    behind in both of them. *)
Theorem analyses_mutate_caller_frames :
  let before := mkCaller Sample.hot_then_mild Sample.idle_normal_day in
  let after_correlate :=
    snd (analyze_weather_traffic_correlation Iso.to_timestamp Iso.series_corr
           Iso.pearsonr_p_value before) in
  let after_impact := snd (analyze_extreme_weather_impact Iso.to_timestamp before) in
  map r_date (rows (weather_df before))
    = [DateStr "2024-01-01"; DateStr "2024-01-02"] /\
  map r_date (rows (traffic_df before))
    = [DateStr "2024-01-01"; DateStr "2024-01-02"] /\
  map r_date (rows (weather_df after_correlate))
    = [Timestamp 20240101; Timestamp 20240102] /\
  map r_date (rows (traffic_df after_correlate))
    = [Timestamp 20240101; Timestamp 20240102] /\
  map r_date (rows (weather_df after_impact))
    = [Timestamp 20240101; Timestamp 20240102] /\
  map r_date (rows (traffic_df after_impact))
    = [Timestamp 20240101; Timestamp 20240102].
Proof. repeat split; vm_compute; reflexivity. Qed.

(** ** Cleaning *)

Lemma clean_body_stages to_timestamp df :
  clean_body to_timestamp df =
  rbind (coerce_dates to_timestamp df) (fun d => Ok (filter_and_sort d)).
Proof.
  unfold clean_body, coerce_dates, filter_and_sort, rbind.
  destruct (has_column df "date");
    [destruct (to_datetime to_timestamp df)|]; simpl; try reflexivity;
    match goal with |- context [dropna_date ?d] => destruct (dropna_date d) end;
    reflexivity.
Qed.

(** Sorting *)

Lemma insert_by_date_in r x l :
  In x (insert_by_date r l) <-> x = r \/ In x l.
Proof.
  induction l as [|y l IH]; simpl.
  - intuition.
  - destruct (ts_key (r_date r) <=? ts_key (r_date y))%Z; simpl; [intuition|].
    rewrite IH. intuition.
Qed.

Lemma sort_values_date_in x l : In x (sort_values_date l) <-> In x l.
Proof.
  induction l as [|y l IH]; simpl; [tauto|].
  rewrite insert_by_date_in, IH. intuition.
Qed.

Lemma insert_by_date_sorted r l :
  StronglySorted date_le l -> StronglySorted date_le (insert_by_date r l).
Proof.
  induction 1 as [|y l Hs IH Hy]; simpl.
  - repeat constructor.
  - destruct (Z.leb_spec (ts_key (r_date r)) (ts_key (r_date y))).
    + constructor; [constructor; assumption|].
      constructor; [assumption|].
      eapply List.Forall_impl; [|exact Hy]. unfold date_le. intros; simpl in *; lia.
    + constructor; [assumption|].
      apply List.Forall_forall. intros x Hx. apply insert_by_date_in in Hx.
      destruct Hx as [->|Hx].
      * unfold date_le. lia.
      * rewrite List.Forall_forall in Hy. auto.
Qed.

Lemma sort_values_date_sorted l : StronglySorted date_le (sort_values_date l).
Proof.
  induction l as [|y l IH]; simpl; [constructor|].
  apply insert_by_date_sorted, IH.
Qed.

Lemma insert_by_date_perm r l : insert_by_date r l ≡ₚ r :: l.
Proof.
  induction l as [|x l IH]; simpl; [reflexivity|].
  destruct (ts_key (r_date r) <=? ts_key (r_date x))%Z; [reflexivity|].
  rewrite IH. apply Permutation_swap.
Qed.

Lemma sort_values_date_perm l : sort_values_date l ≡ₚ l.
Proof.
  induction l as [|x l IH]; simpl; [reflexivity|].
  rewrite insert_by_date_perm. fold (sort_values_date l). rewrite IH. reflexivity.
Qed.


Lemma sort_values_date_Forall (P : row -> Prop) l :
  Forall P l -> Forall P (sort_values_date l).
Proof.
  rewrite !List.Forall_forall. intros H x Hx. apply H, sort_values_date_in, Hx.
Qed.

Lemma filter_Forall {A} (P : A -> Prop) f (l : list A) :
  Forall P l -> Forall P (List.filter f l).
Proof.
  rewrite !List.Forall_forall. intros H x Hx. apply List.filter_In in Hx. apply H, Hx.
Qed.



(** The filters change rows only. *)

Lemma trim_outliers_columns col df : columns (trim_outliers col df) = columns df.
Proof. unfold trim_outliers. destruct (has_column df col); reflexivity. Qed.

Lemma drop_negative_columns col df : columns (drop_negative col df) = columns df.
Proof. unfold drop_negative. destruct (has_column df col); reflexivity. Qed.

Lemma trim_outliers_Forall (P : row -> Prop) col df :
  Forall P (rows df) -> Forall P (rows (trim_outliers col df)).
Proof.
  unfold trim_outliers. destruct (has_column df col); [|auto]. simpl. apply filter_Forall.
Qed.

Lemma drop_negative_Forall (P : row -> Prop) col df :
  Forall P (rows df) -> Forall P (rows (drop_negative col df)).
Proof.
  unfold drop_negative. destruct (has_column df col); [|auto]. simpl. apply filter_Forall.
Qed.

Lemma has_column_columns df df' c :
  columns df' = columns df -> has_column df' c = has_column df c.
Proof. unfold has_column. intros ->. reflexivity. Qed.

Lemma filter_and_sort_columns df : columns (filter_and_sort df) = columns df.
Proof.
  unfold filter_and_sort. simpl.
  rewrite !drop_negative_columns, !trim_outliers_columns. reflexivity.
Qed.

Lemma filter_and_sort_Forall (P : row -> Prop) df :
  Forall P (rows df) -> Forall P (rows (filter_and_sort df)).
Proof.
  intros H. unfold filter_and_sort. simpl.
  apply sort_values_date_Forall.
  do 2 apply drop_negative_Forall. do 3 apply trim_outliers_Forall. exact H.
Qed.

Lemma filter_and_sort_sorted df :
  Forall (fun r => is_timestamp (r_date r)) (rows df) ->
  sorted_by_date (rows (filter_and_sort df)).
Proof.
  intros H. split.
  - apply filter_and_sort_Forall, H.
  - unfold filter_and_sort. simpl. apply sort_values_date_sorted.
Qed.

(** Date coercion *)

Lemma mapM_to_datetime to_timestamp (ds : list datecell) :
  Forall (parses to_timestamp) ds ->
  exists out, mapM (to_datetime_cell to_timestamp) ds = Ok out.
Proof.
  induction 1 as [|d ds Hd _ [out IH]]; simpl; [eauto|].
  rewrite IH. destruct d as [s|t|]; simpl.
  - destruct Hd as [t Ht]. rewrite Ht. simpl. eauto.
  - eauto.
  - eauto.
Qed.

Lemma mapM_to_datetime_cells to_timestamp (ds out : list datecell) :
  mapM (to_datetime_cell to_timestamp) ds = Ok out ->
  Forall (fun d => is_timestamp d \/ d = NaT) out.
Proof.
  revert out. induction ds as [|d ds IH]; simpl; intros out H.
  - inversion H. constructor.
  - destruct (to_datetime_cell to_timestamp d) as [d'|e] eqn:Hd; simpl in H; [|discriminate].
    destruct (mapM (to_datetime_cell to_timestamp) ds) as [ds'|e]; simpl in H; [|discriminate].
    inversion H; subst. constructor; [|apply IH; reflexivity].
    destruct d as [s|t|]; simpl in Hd.
    + destruct (to_timestamp s); inversion Hd. left. eexists; reflexivity.
    + inversion Hd. left. eexists; reflexivity.
    + inversion Hd. right. reflexivity.
Qed.

Lemma zip_with_set_date_dates (P : datecell -> Prop) ds rs :
  Forall P ds -> Forall (fun r => P (r_date r)) (zip_with set_date ds rs).
Proof.
  intros H. revert rs. induction H as [|d ds Hd _ IH]; intros rs; simpl; [constructor|].
  destruct rs as [|r rs]; [constructor|]. constructor; [exact Hd | apply IH].
Qed.

Lemma assign_date_columns df ds :
  has_column df "date" = true -> columns (assign_date df ds) = columns df.
Proof. intros H. unfold assign_date. rewrite H. reflexivity. Qed.

Lemma coerce_dates_inv to_timestamp df d :
  coerce_dates to_timestamp df = Ok d ->
  has_column df "date" = true /\ columns d = columns df /\
  Forall (fun r => is_timestamp (r_date r)) (rows d).
Proof.
  unfold coerce_dates. destruct (has_column df "date") eqn:Hd.
  - unfold to_datetime. rewrite Hd.
    destruct (mapM (to_datetime_cell to_timestamp) (map r_date (rows df))) as [ds|e] eqn:Hm;
      simpl; [|discriminate].
    unfold dropna_date.
    rewrite (has_column_columns df _ "date" (assign_date_columns df ds Hd)), Hd.
    intros H. inversion H; subst; clear H.
    unfold with_rows. cbn [columns rows]. rewrite (assign_date_columns df ds Hd).
    split; [reflexivity|]. split; [reflexivity|].
    apply mapM_to_datetime_cells in Hm.
    apply (zip_with_set_date_dates _ _ (rows df)) in Hm.
    apply List.Forall_forall. intros r Hr. apply List.filter_In in Hr. destruct Hr as [Hr Hn].
    rewrite List.Forall_forall in Hm. destruct (Hm r Hr) as [Ht|Ht]; [exact Ht|].
    rewrite Ht in Hn. discriminate.
  - simpl. unfold dropna_date. rewrite Hd. discriminate.
Qed.

Lemma coerce_dates_ok to_timestamp df :
  has_column df "date" = true ->
  Forall (fun r => parses to_timestamp (r_date r)) (rows df) ->
  exists d, coerce_dates to_timestamp df = Ok d.
Proof.
  intros Hd Hp. unfold coerce_dates, to_datetime. rewrite Hd.
  destruct (mapM_to_datetime to_timestamp (map r_date (rows df))) as [ds Hds].
  { apply List.Forall_map. exact Hp. }
  rewrite Hds. cbn [rbind]. unfold dropna_date.
  rewrite (has_column_columns df _ "date" (assign_date_columns df ds Hd)), Hd. eauto.
Qed.

Lemma empty_rows df c :
  has_column df c = true -> empty df = true -> rows df = [].
Proof.
  unfold has_column, empty. intros Hc He.
  destruct (columns df); [discriminate|]. simpl in He. rewrite orb_false_r in He.
  apply Nat.eqb_eq in He. destruct (rows df); [reflexivity | discriminate].
Qed.

(** C2 (as the code has it): for every input with a date column whose
    dates are all accepted by [pd.to_datetime], [clean_weather_data]
    returns records whose dates are Timestamps in ascending order; the
    order is not strict, records sharing a date are kept. *)
Theorem clean_sorts_by_date (to_timestamp : string -> option Z) (df : frame) :
  has_column df "date" = true ->
  Forall (fun r => parses to_timestamp (r_date r)) (rows df) ->
  exists out,
    clean_weather_data to_timestamp df = Ok out /\ sorted_by_date (rows out).
Proof.
  intros Hd Hp. unfold clean_weather_data.
  destruct (empty df) eqn:He.
  - exists df. split; [reflexivity|].
    rewrite (empty_rows _ _ Hd He). split; constructor.
  - rewrite clean_body_stages.
    destruct (coerce_dates_ok _ _ Hd Hp) as [d Hc]. rewrite Hc. simpl.
    eexists. split; [reflexivity|].
    apply filter_and_sort_sorted. apply (coerce_dates_inv _ _ _ Hc).
Qed.

Lemma clean_sorts_by_date_witness :
  exists out,
    clean_weather_data Iso.to_timestamp Sample.rain_days = Ok out /\
    sorted_by_date (rows out).
Proof.
  apply (clean_sorts_by_date Iso.to_timestamp Sample.rain_days).
  - reflexivity.
  - repeat constructor; vm_compute; eauto.
Defined.

(** C2 fails as stated: two records of the same date are both returned,
    and a series holding an unparseable date comes back as it was, out of
    order. *)
Lemma clean_keeps_duplicates_and_disorder :
  (exists out,
     clean_weather_data Iso.to_timestamp Sample.same_day_twice = Ok out /\
     map r_date (rows out) = [Timestamp 20240101; Timestamp 20240101] /\
     ~ no_duplicate_dates (rows out)) /\
  clean_weather_data Iso.to_timestamp Sample.unparseable = Ok Sample.unparseable /\
  ~ sorted_by_date (rows Sample.unparseable).
Proof.
  split; [|split].
  - eexists. split; [vm_compute; reflexivity|]. split; [reflexivity|].
    unfold no_duplicate_dates. cbn [map rows r_date]. intros H.
    inversion H as [|? ? Hn _]; subst. apply Hn. left.
  - vm_compute. reflexivity.
  - intros [_ H]. simpl in H. inversion H as [|? ? _ Hf]; subst.
    inversion Hf as [|? ? Hle _]; subst. vm_compute in Hle. apply Hle. reflexivity.
Qed.

Lemma trim_outliers_present col df :
  has_column df col = true ->
  Forall (fun r => cell col r <> None) (rows (trim_outliers col df)).
Proof.
  intros H. unfold trim_outliers. rewrite H. cbn [rows with_rows].
  apply List.Forall_forall. intros r Hr. apply List.filter_In in Hr.
  destruct Hr as [_ Hr]. destruct (cell col r); [discriminate|].
  simpl in Hr. discriminate.
Qed.

Lemma trimmed_temperature_present col df :
  In col temp_cols ->
  has_column df col = true ->
  Forall (fun r => cell col r <> None)
         (rows (fold_left (fun d c => trim_outliers c d) temp_cols df)).
Proof.
  intros Hin Hc. cbn [fold_left temp_cols].
  destruct Hin as [<-|[<-|[<-|[]]]].
  - do 2 apply trim_outliers_Forall. apply trim_outliers_present, Hc.
  - apply trim_outliers_Forall. apply trim_outliers_present.
    rewrite (has_column_columns df); [exact Hc | apply trim_outliers_columns].
  - apply trim_outliers_present.
    rewrite (has_column_columns df); [exact Hc|].
    rewrite !trim_outliers_columns. reflexivity.
Qed.

(** C10 (as the code has it): for every input series with a date column
    whose dates are all accepted by [pd.to_datetime] and in which a
    temperature column (TMAX, TMIN or TAVG) is present, no record
    returned by [clean_weather_data] has a missing value in that
    column. *)
Theorem clean_drops_missing_temperature
    (to_timestamp : string -> option Z) (df : frame) (col : string) :
  In col temp_cols ->
  has_column df col = true ->
  has_column df "date" = true ->
  Forall (fun r => parses to_timestamp (r_date r)) (rows df) ->
  exists out,
    clean_weather_data to_timestamp df = Ok out /\
    Forall (fun r => cell col r <> None) (rows out).
Proof.
  intros Hin Hc Hd Hp. unfold clean_weather_data.
  destruct (empty df) eqn:He.
  - exists df. split; [reflexivity|]. rewrite (empty_rows _ _ Hd He). constructor.
  - rewrite clean_body_stages.
    destruct (coerce_dates_ok _ _ Hd Hp) as [d Hcd]. rewrite Hcd. simpl.
    eexists. split; [reflexivity|].
    destruct (coerce_dates_inv _ _ _ Hcd) as (_ & Hcols & _).
    unfold filter_and_sort. cbn [rows with_rows].
    apply sort_values_date_Forall. do 2 apply drop_negative_Forall.
    apply trimmed_temperature_present; [exact Hin|].
    rewrite (has_column_columns df); [exact Hc | exact Hcols].
Qed.

Lemma clean_drops_missing_temperature_witness :
  exists out,
    clean_weather_data Iso.to_timestamp Sample.temps_with_gap = Ok out /\
    Forall (fun r => cell "TMAX" r <> None) (rows out).
Proof.
  apply (clean_drops_missing_temperature Iso.to_timestamp Sample.temps_with_gap "TMAX").
  - simpl. auto.
  - reflexivity.
  - reflexivity.
  - repeat constructor; vm_compute; eauto.
Defined.

(** C10 fails as stated: next to a date that does not parse, the record
    with a missing TMAX is returned with the rest of the input. *)
Lemma clean_keeps_missing_temperature :
  has_column Sample.missing_tmax "TMAX" = true /\
  clean_weather_data Iso.to_timestamp Sample.missing_tmax = Ok Sample.missing_tmax /\
  map (cell "TMAX") (rows Sample.missing_tmax) = [Some 70%Q; None; Some 71%Q].
Proof. repeat split; vm_compute; reflexivity. Qed.

(** Idempotence without temperature columns *)


Lemma mapM_timestamps to_timestamp (ds : list datecell) :
  Forall is_timestamp ds -> mapM (to_datetime_cell to_timestamp) ds = Ok ds.
Proof.
  induction 1 as [|d ds [t ->] _ IH]; simpl; [reflexivity|]. rewrite IH. reflexivity.
Qed.

Lemma zip_with_set_date_same rs : zip_with set_date (map r_date rs) rs = rs.
Proof.
  induction rs as [|r rs IH]; simpl; [reflexivity|]. rewrite IH. destruct r. reflexivity.
Qed.









(** ** Runs of qualifying records *)

Lemma comparison_mask_test comparison threshold col :
  comparison_mask comparison threshold col =
  option_map (fun test => map test col) (comparison_test comparison threshold).
Proof.
  unfold comparison_mask, comparison_test.
  repeat match goal with
         | |- context [String.eqb ?a ?b] => destruct (String.eqb a b); [reflexivity|]
         end.
  reflexivity.
Qed.

Lemma zip_differs_changes b t :
  zip_with differs t (map Some (removelast (b :: t))) = changes b t.
Proof.
  revert b. induction t as [|c t IH]; intros b; [reflexivity|].
  change (removelast (b :: c :: t)) with (b :: removelast (c :: t)).
  cbn [map zip_with changes differs]. rewrite IH. reflexivity.
Qed.

Lemma consecutive_groups_ids_from l :
  consecutive_groups l = ids_from 0 (negb (hd false l)) l.
Proof.
  destruct l as [|b t]; [reflexivity|].
  unfold consecutive_groups, shift, ids_from.
  cbn [zip_with differs changes hd]. rewrite zip_differs_changes.
  destruct b; reflexivity.
Qed.

Lemma ids_from_length a prev l : length (ids_from a prev l) = length l.
Proof.
  unfold ids_from. revert a prev. induction l as [|c t IH]; intros a prev; simpl;
    [reflexivity|]. rewrite IH. reflexivity.
Qed.

Lemma ids_from_cons a prev c t :
  ids_from a prev (c :: t) =
  (if xorb c prev then S a else a) :: ids_from (if xorb c prev then S a else a) c t.
Proof. reflexivity. Qed.

Lemma last_cons_default {A} (x d : A) (l : list A) :
  List.last (x :: l) d = List.last l x.
Proof.
  revert x d. induction l as [|y l IH]; intros x d; [reflexivity|].
  change (List.last (x :: y :: l) d) with (List.last (y :: l) d).
  rewrite (IH y d), (IH y x). reflexivity.
Qed.

Lemma ids_from_app a prev l1 l2 :
  ids_from a prev (l1 ++ l2) =
  ids_from a prev l1 ++ ids_from (List.last (ids_from a prev l1) a) (List.last l1 prev) l2.
Proof.
  revert a prev. induction l1 as [|c t IH]; intros a prev; [reflexivity|].
  rewrite <- app_comm_cons, !ids_from_cons, IH, !last_cons_default. reflexivity.
Qed.

Lemma ids_from_constant a prev l :
  Forall (fun c => c = prev) l -> ids_from a prev l = repeat a (length l).
Proof.
  induction 1 as [|c t -> _ IH]; [reflexivity|].
  rewrite ids_from_cons, xorb_nilpotent, IH. reflexivity.
Qed.

Lemma ids_from_shift n a prev l :
  ids_from (n + a) prev l = map (Nat.add n) (ids_from a prev l).
Proof.
  revert a prev. induction l as [|c t IH]; intros a prev; [reflexivity|].
  rewrite !ids_from_cons. cbn [map].
  destruct (xorb c prev).
  - rewrite <- IH, Nat.add_succ_r. reflexivity.
  - rewrite <- IH. reflexivity.
Qed.

Lemma ids_from_range a prev l :
  Forall (fun i => a <= i <= List.last (ids_from a prev l) a)%nat (ids_from a prev l).
Proof.
  revert a prev. induction l as [|c t IH]; intros a prev; [constructor|].
  rewrite ids_from_cons.
  set (a' := if xorb c prev then S a else a).
  assert (Ha : (a <= a')%nat) by (subst a'; destruct (xorb c prev); lia).
  specialize (IH a' c).
  rewrite last_cons_default.
  assert (Hge : (a' <= List.last (ids_from a' c t) a')%nat).
  { destruct (ids_from a' c t) as [|i rest] eqn:E; [simpl; lia|].
    rewrite List.Forall_forall in IH.
    assert (Hi : In (List.last (i :: rest) a') (i :: rest)).
    { destruct (exists_last (l := i :: rest)) as (l' & x & Hx); [discriminate|].
      rewrite Hx, last_last. apply List.in_or_app. right. left. reflexivity. }
    apply IH in Hi. lia. }
  constructor; [lia|].
  eapply List.Forall_impl; [|exact IH]. simpl. intros; lia.
Qed.

Lemma consecutive_groups_positive l :
  Forall (fun i => 1 <= i)%nat (consecutive_groups l).
Proof.
  rewrite consecutive_groups_ids_from. destruct l as [|b t]; [constructor|].
  rewrite ids_from_cons. cbn [hd].
  replace (xorb b (negb b)) with true by (destruct b; reflexivity).
  constructor; [lia|].
  eapply List.Forall_impl; [|apply ids_from_range]. simpl. intros; lia.
Qed.

(** Groups of an appended table *)

Lemma combine_app_same {A B} (l1 l2 : list A) (m1 m2 : list B) :
  length l1 = length m1 ->
  combine (l1 ++ l2) (m1 ++ m2) = combine l1 m1 ++ combine l2 m2.
Proof.
  revert m1. induction l1 as [|x l1 IH]; intros [|y m1] H; try discriminate; [reflexivity|].
  simpl. rewrite IH by (simpl in H; lia). reflexivity.
Qed.

Lemma group_rows_app rs1 rs2 ids1 ids2 k :
  length rs1 = length ids1 ->
  group_rows (rs1 ++ rs2) (ids1 ++ ids2) k = group_rows rs1 ids1 k ++ group_rows rs2 ids2 k.
Proof.
  intros H. unfold group_rows.
  rewrite combine_app_same, List.filter_app, List.map_app by exact H. reflexivity.
Qed.

Lemma group_count_app m1 m2 ids1 ids2 k :
  length m1 = length ids1 ->
  group_count (m1 ++ m2) (ids1 ++ ids2) k =
  (group_count m1 ids1 k + group_count m2 ids2 k)%nat.
Proof.
  intros H. unfold group_count.
  rewrite combine_app_same, List.filter_app, List.length_app by exact H. reflexivity.
Qed.

Lemma group_rows_none rs ids k :
  Forall (fun i => i <> k) ids -> group_rows rs ids k = [].
Proof.
  intros H. unfold group_rows. revert rs.
  induction H as [|i ids Hi _ IH]; intros [|r rs]; try reflexivity.
  simpl. apply Nat.eqb_neq in Hi. rewrite Hi. apply IH.
Qed.

Lemma group_count_none mask ids k :
  Forall (fun i => i <> k) ids -> group_count mask ids k = 0%nat.
Proof.
  intros H. unfold group_count. revert mask.
  induction H as [|i ids Hi _ IH]; intros [|b mask]; try reflexivity.
  simpl. apply Nat.eqb_neq in Hi. rewrite Hi, andb_false_r. apply IH.
Qed.

Lemma group_rows_all rs k : group_rows rs (repeat k (length rs)) k = rs.
Proof.
  unfold group_rows. induction rs as [|r rs IH]; [reflexivity|].
  simpl. rewrite Nat.eqb_refl. simpl. rewrite IH. reflexivity.
Qed.

Lemma group_count_all mask k :
  Forall (fun b => b = true) mask ->
  group_count mask (repeat k (length mask)) k = length mask.
Proof.
  unfold group_count. induction 1 as [|b mask -> _ IH]; [reflexivity|].
  simpl. rewrite Nat.eqb_refl. simpl. rewrite IH. reflexivity.
Qed.

Lemma group_rows_shift rs ids n k :
  group_rows rs (map (Nat.add n) ids) (n + k) = group_rows rs ids k.
Proof.
  unfold group_rows. revert ids. induction rs as [|r rs IH]; intros [|i ids]; try reflexivity.
  simpl. replace (Nat.eqb (n + i) (n + k)) with (Nat.eqb i k).
  - destruct (Nat.eqb i k); simpl; rewrite IH; reflexivity.
  - destruct (Nat.eqb_spec i k), (Nat.eqb_spec (n + i) (n + k)); try reflexivity; lia.
Qed.

Lemma group_count_shift mask ids n k :
  group_count mask (map (Nat.add n) ids) (n + k) = group_count mask ids k.
Proof.
  unfold group_count. revert ids.
  induction mask as [|b mask IH]; intros [|i ids]; try reflexivity.
  simpl. replace (Nat.eqb (n + i) (n + k)) with (Nat.eqb i k).
  - destruct (b && Nat.eqb i k); simpl; rewrite IH; reflexivity.
  - destruct (Nat.eqb_spec i k), (Nat.eqb_spec (n + i) (n + k)); try reflexivity; lia.
Qed.

Lemma group_rows_in rs ids k r : In r (group_rows rs ids k) -> In r rs.
Proof.
  unfold group_rows. intros H. apply List.in_map_iff in H.
  destruct H as ([r' i] & <- & H). apply List.filter_In in H. destruct H as [H _].
  apply in_combine_l in H. exact H.
Qed.

(** The loop of [_detect_consecutive_events] on a cleaned series *)

Lemma iloc_last_nonempty (g : list row) d :
  g <> [] -> iloc_last g = Ok (List.last g d).
Proof.
  intros H. destruct (exists_last H) as (l' & x & ->).
  unfold iloc_last. rewrite List.rev_app_distr, last_last. reflexivity.
Qed.

Lemma run_event_of_pure strftime df column g :
  has_column df "date" = true ->
  g <> [] ->
  Forall (fun r => is_timestamp (r_date r)) g ->
  run_event_of strftime df column g = Ok (run_event_pure strftime column g).
Proof.
  intros Hd Hg Ht. unfold run_event_of, run_event_pure.
  rewrite (iloc_last_nonempty g (Sample.blank NaT) Hg).
  assert (Hl : is_timestamp (r_date (List.last g (Sample.blank NaT)))).
  { rewrite List.Forall_forall in Ht. apply Ht.
    destruct (exists_last Hg) as (l' & x & ->). rewrite last_last.
    apply List.in_or_app. right. left. reflexivity. }
  destruct g as [|r g']; [congruence|].
  assert (Hf : is_timestamp (r_date r)) by (inversion Ht; assumption).
  cbn [iloc_first rbind hd]. unfold row_date. rewrite Hd. cbn [rbind].
  destruct Hf as [t0 ->]. destruct Hl as [t1 ->]. reflexivity.
Qed.

Lemma mfor_accumulate {A} (keys : list A) (body : A -> M (list run_event) unit)
    (f : A -> list run_event) :
  (forall k s, In k keys -> body k s = (Ok tt, s ++ f k)) ->
  forall s, mfor keys body s = (Ok tt, s ++ flat_map f keys).
Proof.
  induction keys as [|k keys IH]; intros Hb s; simpl.
  - rewrite List.app_nil_r. reflexivity.
  - unfold mbind. rewrite Hb by (left; reflexivity).
    rewrite IH by (intros; apply Hb; right; assumption).
    rewrite <- List.app_assoc. reflexivity.
Qed.

Lemma flat_map_filter {A B} (p : A -> bool) (f : A -> list B) (l : list A) :
  flat_map f (List.filter p l) = flat_map (fun a => if p a then f a else []) l.
Proof.
  induction l as [|a l IH]; [reflexivity|]. simpl.
  destruct (p a); simpl; rewrite IH; reflexivity.
Qed.

Lemma flat_map_filter_irrelevant {A B} (p : A -> bool) (f : A -> list B) (l : list A) :
  (forall a, p a = false -> f a = []) ->
  flat_map f (List.filter p l) = flat_map f l.
Proof.
  intros H. rewrite flat_map_filter. apply List.flat_map_ext.
  intros a. destruct (p a) eqn:E; [reflexivity | symmetry; apply H, E].
Qed.

Lemma flat_map_nil {A B} (f : A -> list B) (l : list A) :
  (forall a, In a l -> f a = []) -> flat_map f l = [].
Proof.
  induction l as [|a l IH]; intros H; [reflexivity|]. simpl.
  rewrite H by (left; reflexivity). apply IH. intros; apply H; right; assumption.
Qed.

Lemma flat_map_agree {A B} (f g : A -> list B) (l : list A) :
  (forall a, In a l -> f a = g a) -> flat_map f l = flat_map g l.
Proof.
  induction l as [|a l IH]; intros H; [reflexivity|]. simpl.
  rewrite H by (left; reflexivity). rewrite IH; [reflexivity|].
  intros; apply H; right; assumption.
Qed.

Lemma per_group_absent strftime column minc rs mask ids k :
  (1 <= minc)%nat ->
  Forall (fun i => i <> k) ids ->
  per_group strftime column minc rs mask ids k = [].
Proof.
  intros Hm H. unfold per_group. rewrite (group_count_none _ _ _ H).
  destruct minc; [lia | reflexivity].
Qed.

Lemma existsb_absent ids k :
  existsb (Nat.eqb k) ids = false -> Forall (fun i => i <> k) ids.
Proof.
  induction ids as [|i ids IH]; simpl; [constructor|].
  intros H. apply orb_false_iff in H. destruct H as [H1 H2].
  constructor; [apply Nat.eqb_neq in H1; lia | apply IH, H2].
Qed.

Lemma per_group_keys strftime column minc rs mask ids N :
  (1 <= minc)%nat ->
  (list_max ids < N)%nat ->
  flat_map (per_group strftime column minc rs mask ids) (group_keys ids) =
  flat_map (per_group strftime column minc rs mask ids) (seq 0 N).
Proof.
  intros Hm HN. unfold group_keys.
  rewrite flat_map_filter_irrelevant
    by (intros k Hk; apply per_group_absent; [exact Hm | apply existsb_absent, Hk]).
  replace N with (S (list_max ids) + (N - S (list_max ids)))%nat by lia.
  rewrite seq_app, List.flat_map_app.
  rewrite (flat_map_nil _ (seq _ (N - _))); [rewrite List.app_nil_r; reflexivity|].
  intros k Hk. apply in_seq in Hk. apply per_group_absent; [exact Hm|].
  assert (Hle : Forall (fun i => i <= list_max ids)%nat ids) by (apply list_max_le; lia).
  eapply List.Forall_impl; [|exact Hle]. simpl. intros; lia.
Qed.

(** On a cleaned series the result of [_detect_consecutive_events] is the
    contribution of every group id in turn. *)
Lemma detect_consecutive_groups strftime df column threshold minc comparison test N :
  cleaned df ->
  has_column df column = true ->
  comparison_test comparison threshold = Some test ->
  (1 <= minc)%nat ->
  (list_max (consecutive_groups (map test (map (cell column) (rows df)))) < N)%nat ->
  _detect_consecutive_events strftime df column threshold minc comparison =
  flat_map (per_group strftime column minc (rows df)
              (map test (map (cell column) (rows df)))
              (consecutive_groups (map test (map (cell column) (rows df)))))
           (seq 0 N).
Proof.
  intros [Hd Hts] Hc Htest Hm HN.
  set (mask := map test (map (cell column) (rows df))) in *.
  unfold _detect_consecutive_events, consecutive_body, getcol.
  rewrite Hc. unfold mbind at 1, mlift at 1.
  rewrite comparison_mask_test, Htest. cbn [option_map]. fold mask.
  rewrite (mfor_accumulate _ _
             (fun k => if Nat.leb minc (length (group_rows (rows df) (consecutive_groups mask) k))
                       then [run_event_pure strftime column
                               (group_rows (rows df) (consecutive_groups mask) k)]
                       else [])).
  - cbn [snd app]. rewrite flat_map_filter.
    rewrite <- (per_group_keys strftime column minc (rows df) mask _ N Hm HN).
    reflexivity.
  - intros k s _.
    destruct (Nat.leb minc (length (group_rows (rows df) (consecutive_groups mask) k))) eqn:E;
      cbn [when_]; [|unfold mret; rewrite List.app_nil_r; reflexivity].
    unfold mbind, mlift. rewrite run_event_of_pure; [reflexivity | exact Hd | |].
    + apply Nat.leb_le in E. intros Hnil. rewrite Hnil in E. simpl in E. lia.
    + apply List.Forall_forall. intros r Hr. apply group_rows_in in Hr.
      rewrite List.Forall_forall in Hts. apply Hts, Hr.
Qed.

(** Group ids around a maximal run of true positions *)

Lemma last_repeat {A} (x : A) n : List.last (repeat x n) x = x.
Proof.
  induction n as [|n IH]; [reflexivity|]. cbn [repeat]. rewrite last_cons_default. exact IH.
Qed.

Lemma last_constant {A} (x : A) l : Forall (fun c => c = x) l -> List.last l x = x.
Proof.
  induction 1 as [|c l -> _ IH]; [reflexivity|]. rewrite last_cons_default. exact IH.
Qed.

Lemma groups_decomposition (mp mr mq : list bool) :
  mr <> [] ->
  Forall (fun b => b = true) mr ->
  (forall m' b, mp = m' ++ [b] -> b = false) ->
  (forall b m', mq = b :: m' -> b = false) ->
  consecutive_groups (mp ++ mr ++ mq) =
  consecutive_groups mp
  ++ repeat (S (List.last (consecutive_groups mp) 0%nat)) (length mr)
  ++ map (Nat.add (S (List.last (consecutive_groups mp) 0%nat))) (consecutive_groups mq).
Proof.
  intros Hne Hr Hp Hq.
  destruct mr as [|b mr']; [congruence|].
  assert (Hb : b = true) by (inversion Hr; assumption).
  assert (Hr' : Forall (fun c => c = true) mr') by (inversion Hr; assumption).
  subst b.
  rewrite (consecutive_groups_ids_from (mp ++ _)), ids_from_app.
  set (p0 := negb (hd false (mp ++ (true :: mr') ++ mq))).
  assert (Hpre : ids_from 0 p0 mp = consecutive_groups mp).
  { rewrite consecutive_groups_ids_from. subst p0. destruct mp; reflexivity. }
  assert (Hlast : List.last mp p0 = false).
  { destruct (List.destruct_list mp) as [(x & l' & E)|E].
    - destruct (@exists_last _ mp) as (m' & c & Hm); [rewrite E; discriminate|].
      rewrite Hm, last_last. apply (Hp m' c Hm).
    - subst mp. reflexivity. }
  rewrite Hpre, Hlast. f_equal.
  set (k := List.last (consecutive_groups mp) 0%nat).
  rewrite ids_from_app.
  rewrite ids_from_cons. cbn [xorb].
  rewrite (ids_from_constant (S k) true mr' Hr').
  change (S k :: repeat (S k) (length mr')) with (repeat (S k) (length (true :: mr'))).
  f_equal.
  assert (Hl1 : List.last (repeat (S k) (length (true :: mr'))) k = S k).
  { cbn [length repeat]. rewrite last_cons_default. apply last_repeat. }
  assert (Hl2 : List.last (true :: mr') false = true).
  { rewrite last_cons_default. apply last_constant, Hr'. }
  rewrite Hl1, Hl2.
  replace (S k) with (S k + 0)%nat at 1 by lia.
  rewrite ids_from_shift. f_equal.
  rewrite consecutive_groups_ids_from.
  destruct mq as [|c mq']; [reflexivity|].
  rewrite (Hq c mq' eq_refl). reflexivity.
Qed.

Lemma consecutive_groups_length l : length (consecutive_groups l) = length l.
Proof. rewrite consecutive_groups_ids_from. apply ids_from_length. Qed.

Lemma consecutive_groups_below_last l :
  Forall (fun i => i <= List.last (consecutive_groups l) 0)%nat (consecutive_groups l).
Proof.
  rewrite consecutive_groups_ids_from.
  eapply List.Forall_impl; [|apply ids_from_range]. simpl. intros; lia.
Qed.

Lemma repeat_other {A} (P : A -> Prop) (x : A) n : P x -> Forall P (repeat x n).
Proof. intros H. induction n; simpl; constructor; assumption. Qed.

Section Decomposed.

Variable strftime : Z -> string.
Variable column : string.
Variable minc : nat.
Variables pre run post : list row.
Variables mp mr mq : list bool.
Variables Ip Iq : list nat.
Variable k : nat.

Hypothesis pre_mask : length pre = length mp.
Hypothesis pre_ids : length pre = length Ip.
Hypothesis run_mask : length run = length mr.
Hypothesis run_true : Forall (fun b => b = true) mr.
Hypothesis pre_low : Forall (fun i => i <= k)%nat Ip.
Hypothesis post_positive : Forall (fun i => 1 <= i)%nat Iq.

Local Abbreviation rs := (pre ++ run ++ post).
Local Abbreviation mask := (mp ++ mr ++ mq).
Local Abbreviation ids := (Ip ++ repeat (S k) (length run) ++ map (Nat.add (S k)) Iq).

Lemma group_rows_three j :
  group_rows rs ids j =
  group_rows pre Ip j ++ group_rows run (repeat (S k) (length run)) j
  ++ group_rows post (map (Nat.add (S k)) Iq) j.
Proof.
  rewrite group_rows_app by exact pre_ids.
  rewrite group_rows_app by (rewrite List.repeat_length; reflexivity). reflexivity.
Qed.

Lemma group_count_three j :
  group_count mask ids j =
  (group_count mp Ip j + (group_count mr (repeat (S k) (length run)) j
   + group_count mq (map (Nat.add (S k)) Iq) j))%nat.
Proof.
  rewrite group_count_app by (rewrite <- pre_mask; exact pre_ids).
  rewrite group_count_app by (rewrite List.repeat_length; symmetry; exact run_mask).
  reflexivity.
Qed.

Lemma shifted_above j :
  (j <= S k)%nat -> Forall (fun i => i <> j) (map (Nat.add (S k)) Iq).
Proof.
  intros Hj. apply List.Forall_map.
  eapply List.Forall_impl; [|exact post_positive]. simpl. intros; lia.
Qed.

Lemma per_group_before j :
  (j <= k)%nat ->
  per_group strftime column minc rs mask ids j = per_group strftime column minc pre mp Ip j.
Proof.
  intros Hj. unfold per_group.
  rewrite group_rows_three, group_count_three.
  rewrite (group_rows_none run), (group_count_none mr)
    by (apply repeat_other; lia).
  rewrite (group_rows_none post), (group_count_none mq) by (apply shifted_above; lia).
  rewrite List.app_nil_r, !Nat.add_0_r. reflexivity.
Qed.

Lemma per_group_run :
  per_group strftime column minc rs mask ids (S k) =
  if Nat.leb minc (length run) then [run_event_pure strftime column run] else [].
Proof.
  unfold per_group. rewrite group_rows_three, group_count_three.
  rewrite (group_rows_none pre), (group_count_none mp)
    by (eapply List.Forall_impl; [|exact pre_low]; simpl; intros; lia).
  rewrite (group_rows_none post), (group_count_none mq) by (apply shifted_above; lia).
  rewrite group_rows_all. rewrite run_mask, (group_count_all mr (S k) run_true).
  rewrite List.app_nil_r, Nat.add_0_r. cbn [app Nat.add]. rewrite <- run_mask.
  destruct (Nat.leb minc (length run)); reflexivity.
Qed.

Lemma per_group_after i :
  (1 <= i)%nat ->
  per_group strftime column minc rs mask ids (S k + i) =
  per_group strftime column minc post mq Iq i.
Proof.
  intros Hi. unfold per_group.
  rewrite group_rows_three, group_count_three.
  rewrite (group_rows_none pre), (group_count_none mp)
    by (eapply List.Forall_impl; [|exact pre_low]; simpl; intros; lia).
  rewrite (group_rows_none run), (group_count_none mr) by (apply repeat_other; lia).
  rewrite group_rows_shift, group_count_shift. reflexivity.
Qed.

Lemma flat_map_decomposed m :
  flat_map (per_group strftime column minc rs mask ids) (seq 0 (S k + S m)) =
  flat_map (per_group strftime column minc pre mp Ip) (seq 0 (S k))
  ++ (if Nat.leb minc (length run) then [run_event_pure strftime column run] else [])
  ++ flat_map (per_group strftime column minc post mq Iq) (seq 1 m).
Proof.
  assert (Hgen : forall len start, (1 <= start)%nat ->
            flat_map (per_group strftime column minc rs mask ids) (seq (S k + start) len) =
            flat_map (per_group strftime column minc post mq Iq) (seq start len)).
  { induction len as [|len IH]; intros start Hs; [reflexivity|].
    cbn [seq flat_map]. rewrite per_group_after by exact Hs.
    replace (S (S k + start)) with (S k + S start)%nat by lia.
    rewrite IH by lia. reflexivity. }
  rewrite seq_app, List.flat_map_app. f_equal.
  - apply flat_map_agree. intros j Hj. apply in_seq in Hj.
    apply per_group_before. lia.
  - change (0 + S k)%nat with (S k). cbn [seq flat_map]. rewrite per_group_run. f_equal.
    replace (S (S k)) with (S k + 1)%nat by lia. apply Hgen. lia.
Qed.

End Decomposed.

Lemma cleaned_with_rows df rs :
  cleaned df -> (forall r, In r rs -> In r (rows df)) -> cleaned (with_rows df rs).
Proof.
  intros [Hd Ht] Hsub. split; [exact Hd|].
  cbn [rows with_rows]. apply List.Forall_forall. intros r Hr.
  rewrite List.Forall_forall in Ht. apply Ht, Hsub, Hr.
Qed.

Lemma list_max_below (l : list nat) n :
  Forall (fun i => i <= n)%nat l -> (list_max l < S n)%nat.
Proof. intros H. apply list_max_le in H. lia. Qed.

(** A maximal run of qualifying records contributes one event when it
    is long enough and none otherwise; the records before and after it
    contribute what they would on their own. *)
Lemma run_decomposition strftime df column threshold minc comparison test pre run post :
  cleaned df ->
  has_column df column = true ->
  comparison_test comparison threshold = Some test ->
  (1 <= minc)%nat ->
  rows df = pre ++ run ++ post ->
  run <> [] ->
  Forall (fun r => test (cell column r) = true) run ->
  (forall pre' r, pre = pre' ++ [r] -> test (cell column r) = false) ->
  (forall r post', post = r :: post' -> test (cell column r) = false) ->
  _detect_consecutive_events strftime df column threshold minc comparison =
  _detect_consecutive_events strftime (with_rows df pre) column threshold minc comparison
  ++ (if Nat.leb minc (length run) then [run_event_pure strftime column run] else [])
  ++ _detect_consecutive_events strftime (with_rows df post) column threshold minc comparison.
Proof.
  intros Hcl Hc Htest Hm Hrows Hne Hrun Hbefore Hafter.
  pose (T := fun l : list row => map test (map (cell column) l)).
  assert (Hmask : T (rows df) = T pre ++ T run ++ T post).
  { unfold T. rewrite Hrows, !List.map_app. reflexivity. }
  assert (HTlen : forall l, length (T l) = length l).
  { intros l. unfold T. rewrite !List.length_map. reflexivity. }
  pose (k := List.last (consecutive_groups (T pre)) 0%nat).
  pose (m := list_max (consecutive_groups (T post))).
  assert (Hids : consecutive_groups (T (rows df)) =
                 consecutive_groups (T pre) ++ repeat (S k) (length run)
                 ++ map (Nat.add (S k)) (consecutive_groups (T post))).
  { rewrite Hmask, groups_decomposition.
    - rewrite HTlen. reflexivity.
    - destruct run; [congruence | discriminate].
    - unfold T. apply List.Forall_map, List.Forall_map. exact Hrun.
    - intros m' b E.
      destruct (List.destruct_list pre) as [(x & l' & Ep)|Ep].
      + destruct (@exists_last _ pre) as (pre' & r & Hp); [rewrite Ep; discriminate|].
        rewrite Hp in E. unfold T in E. rewrite !List.map_app in E. cbn [map] in E.
        apply app_inj_tail in E. destruct E as [_ <-]. apply (Hbefore pre' r Hp).
      + rewrite Ep in E. destruct m'; discriminate.
    - intros b m' E. destruct post as [|r post']; [discriminate|].
      unfold T in E. cbn [map] in E. inversion E. apply (Hafter r post' eq_refl). }
  assert (Hpre : cleaned (with_rows df pre)).
  { apply cleaned_with_rows; [exact Hcl|]. intros r Hr. rewrite Hrows.
    apply List.in_or_app. left. exact Hr. }
  assert (Hpost : cleaned (with_rows df post)).
  { apply cleaned_with_rows; [exact Hcl|]. intros r Hr. rewrite Hrows.
    apply List.in_or_app. right. apply List.in_or_app. right. exact Hr. }
  assert (Hlow : Forall (fun i => i <= k)%nat (consecutive_groups (T pre)))
    by apply consecutive_groups_below_last.
  assert (Hpos : Forall (fun i => 1 <= i)%nat (consecutive_groups (T post)))
    by apply consecutive_groups_positive.
  rewrite (detect_consecutive_groups strftime df column threshold minc comparison test
             (S k + S m) Hcl Hc Htest Hm).
  2:{ fold (T (rows df)). rewrite Hids.
      replace (S k + S m)%nat with (S (S k + m)) by lia. apply list_max_below.
      apply List.Forall_app. split.
      - eapply List.Forall_impl; [|exact Hlow]. simpl. intros; lia.
      - apply List.Forall_app. split.
        + apply repeat_other. lia.
        + apply List.Forall_map.
          assert (Hle : Forall (fun i => i <= m)%nat (consecutive_groups (T post)))
            by (apply list_max_le; unfold m; lia).
          eapply List.Forall_impl; [|exact Hle]. simpl. intros; lia. }
  rewrite (detect_consecutive_groups strftime (with_rows df pre) column threshold minc
             comparison test (S k) Hpre Hc Htest Hm).
  2:{ cbn [rows with_rows]. fold (T pre). apply list_max_below. exact Hlow. }
  rewrite (detect_consecutive_groups strftime (with_rows df post) column threshold minc
             comparison test (S m) Hpost Hc Htest Hm).
  2:{ cbn [rows with_rows]. fold (T post). unfold m. lia. }
  cbn [rows with_rows]. fold (T (rows df)) (T pre) (T post).
  rewrite Hids, Hmask, Hrows.
  rewrite (flat_map_decomposed strftime column minc pre run post (T pre) (T run) (T post)
             (consecutive_groups (T pre)) (consecutive_groups (T post)) k).
  - f_equal. f_equal. cbn [seq flat_map].
    rewrite per_group_absent; [reflexivity | exact Hm |].
    eapply List.Forall_impl; [|exact Hpos]. simpl. intros; lia.
  - symmetry. apply HTlen.
  - rewrite consecutive_groups_length. symmetry. apply HTlen.
  - symmetry. apply HTlen.
  - unfold T. apply List.Forall_map, List.Forall_map. exact Hrun.
  - exact Hlow.
  - exact Hpos.
Qed.

(** Run categories in the dictionary of [detect_extreme_events] *)

Lemma mbind_ok {S A B} (m : M S A) (f : A -> M S B) s a s' :
  m s = (Ok a, s') -> mbind m f s = f a s'.
Proof. intros H. unfold mbind. rewrite H. reflexivity. Qed.

Lemma when_modify_ok {S} b (f : S -> S) s :
  when_ b (mmodify f) s = (Ok tt, if b then f s else s).
Proof. destruct b; reflexivity. Qed.

Lemma point_events_ok strftime df key field column selected severity s :
  cleaned df ->
  (forall r, In r selected -> In r (rows df)) ->
  exists s', point_events strftime df key field column selected severity s = (Ok tt, s').
Proof.
  intros [Hd Ht] Hsub. unfold point_events. revert s.
  induction selected as [|day sel IH]; intros s; cbn [mfor]; [unfold mret; eauto|].
  assert (Hday : is_timestamp (r_date day)).
  { rewrite List.Forall_forall in Ht. apply Ht, Hsub. left. reflexivity. }
  destruct Hday as [t Hday].
  erewrite mbind_ok.
  - apply IH. intros r Hr. apply Hsub. right. exact Hr.
  - unfold mbind, mlift, row_date. rewrite Hd, Hday. reflexivity.
Qed.

Lemma when_point_events_ok strftime df b key field column f severity s :
  cleaned df ->
  exists s',
    when_ b (point_events strftime df key field column (List.filter f (rows df)) severity) s
    = (Ok tt, s').
Proof.
  intros Hcl. destruct b; cbn [when_]; [|unfold mret; eauto].
  apply point_events_ok; [exact Hcl|]. intros r Hr. apply List.filter_In in Hr. apply Hr.
Qed.

Lemma detect_no_rows strftime df column threshold minc comparison test :
  cleaned df ->
  has_column df column = true ->
  comparison_test comparison threshold = Some test ->
  (1 <= minc)%nat ->
  rows df = [] ->
  _detect_consecutive_events strftime df column threshold minc comparison = [].
Proof.
  intros Hcl Hc Htest Hm Hrows.
  rewrite (detect_consecutive_groups strftime df column threshold minc comparison test 1
             Hcl Hc Htest Hm).
  - rewrite Hrows. cbn [seq flat_map map]. rewrite List.app_nil_r.
    apply per_group_absent; [exact Hm | constructor].
  - rewrite Hrows. cbn. lia.
Qed.

Lemma run_category_test key col thr minc cmp :
  In (key, col, thr, minc, cmp) run_categories ->
  (3 <= minc)%nat /\ exists test, comparison_test cmp thr = Some test.
Proof.
  intros Hin. simpl in Hin.
  destruct Hin as [E|[E|[E|[]]]]; inversion E; subst; (split; [lia | eexists; reflexivity]).
Qed.

Lemma detect_run_category strftime df key col thr minc cmp :
  In (key, col, thr, minc, cmp) run_categories ->
  cleaned df ->
  has_column df col = true ->
  returned_at key (detect_extreme_events strftime df) =
  Some (map RunEvent (_detect_consecutive_events strftime df col thr minc cmp)).
Proof.
  intros Hin Hcl Hc.
  destruct (run_category_test _ _ _ _ _ Hin) as (Hm3 & test & Htest).
  assert (Hm : (1 <= minc)%nat) by lia.
  destruct (empty df) eqn:He.
  - unfold detect_extreme_events. rewrite He. cbn [returned_at].
    rewrite (detect_no_rows strftime df col thr minc cmp test Hcl Hc Htest Hm)
      by (apply (empty_rows df "date"); [apply Hcl | exact He]).
    simpl in Hin. destruct Hin as [E|[E|[E|[]]]]; inversion E; subst; vm_compute; reflexivity.
  - rewrite (detect_result _ _ He). cbn [returned_at]. unfold detect_body.
    simpl in Hin. destruct Hin as [E|[E|[E|[]]]]; inversion E; subst; clear E.
    + rewrite Hc.
      erewrite mbind_ok by apply when_modify_ok.
      match goal with
      | |- snd (?rest ?s) !! _ = _ =>
          assert (Hp : preserves "heatwaves" rest) by preserved; rewrite Hp
      end.
      apply lookup_insert_eq.
    + rewrite Hc.
      erewrite mbind_ok by apply when_modify_ok.
      erewrite mbind_ok by apply when_modify_ok.
      match goal with
      | |- snd (?rest ?s) !! _ = _ =>
          assert (Hp : preserves "cold_spells" rest) by preserved; rewrite Hp
      end.
      apply lookup_insert_eq.
    + rewrite Hc.
      erewrite mbind_ok by apply when_modify_ok.
      erewrite mbind_ok by apply when_modify_ok.
      match goal with
      | |- context [mbind (when_ true ?p) ?f ?s] =>
          destruct (when_point_events_ok strftime df true "heavy_rainfall" "precipitation" "PRCP"
                      (fun r => num_gt (cell "PRCP" r) (Some (extreme_thresholds "heavy_rain")))
                      (fun _ => "heavy") s Hcl) as [s3 H3]
      end.
      erewrite mbind_ok by exact H3.
      match goal with
      | |- context [mbind (when_ ?b ?p) ?f ?s] =>
          destruct (when_point_events_ok strftime df b "snowstorms" "snowfall" "SNOW"
                      (fun r => num_gt (cell "SNOW" r) (Some (extreme_thresholds "snowstorm")))
                      (fun _ => "storm") s Hcl) as [s4 H4]
      end.
      erewrite mbind_ok by exact H4.
      match goal with
      | |- context [mbind (when_ ?b ?p) ?f ?s] =>
          destruct (when_point_events_ok strftime df b "high_winds" "wind_speed" "AWND"
                      (fun r => num_gt (cell "AWND" r) (Some (extreme_thresholds "high_wind")))
                      (fun day => if num_lt (cell "AWND" day)
                                       (Some (extreme_thresholds "extreme_wind"))
                                  then "high" else "extreme") s Hcl) as [s5 H5]
      end.
      erewrite mbind_ok by exact H5.
      rewrite when_modify_ok. cbn [snd]. apply lookup_insert_eq.
Qed.

(** C7: in a cleaned series, a maximal run of qualifying records whose
    length is exactly the category minimum (3 for heatwaves and cold
    spells, 7 for drought periods) adds exactly one run event, of duration
    the run length, between the events of the records before it and those
    of the records after it; a maximal run one record shorter adds
    none. *)
Theorem run_of_minimum_length
    (strftime : Z -> string) (df : frame) (key col : string) (thr : Q) (minc : nat)
    (cmp : string) (pre run post : list row) :
  In (key, col, thr, minc, cmp) run_categories ->
  cleaned df ->
  has_column df col = true ->
  rows df = pre ++ run ++ post ->
  Forall (fun r => qualifies cmp thr (cell col r) = true) run ->
  (forall pre' r, pre = pre' ++ [r] -> qualifies cmp thr (cell col r) = false) ->
  (forall r post', post = r :: post' -> qualifies cmp thr (cell col r) = false) ->
  exists before after,
    returned_at key (detect_extreme_events strftime (with_rows df pre)) = Some before /\
    returned_at key (detect_extreme_events strftime (with_rows df post)) = Some after /\
    (length run = minc ->
     returned_at key (detect_extreme_events strftime df)
       = Some (before ++ [RunEvent (run_event_pure strftime col run)] ++ after) /\
     duration (run_event_pure strftime col run) = length run) /\
    (S (length run) = minc ->
     returned_at key (detect_extreme_events strftime df) = Some (before ++ after)).
Proof.
  intros Hin Hcl Hc Hrows Hrun Hbefore Hafter.
  destruct (run_category_test _ _ _ _ _ Hin) as (Hm3 & test & Htest).
  unfold qualifies in Hrun, Hbefore, Hafter. rewrite Htest in Hrun, Hbefore, Hafter.
  assert (Hpre : cleaned (with_rows df pre)).
  { apply cleaned_with_rows; [exact Hcl|]. intros r Hr. rewrite Hrows.
    apply List.in_or_app. left. exact Hr. }
  assert (Hpost : cleaned (with_rows df post)).
  { apply cleaned_with_rows; [exact Hcl|]. intros r Hr. rewrite Hrows.
    apply List.in_or_app. right. apply List.in_or_app. right. exact Hr. }
  exists (map RunEvent (_detect_consecutive_events strftime (with_rows df pre) col thr minc cmp)).
  exists (map RunEvent (_detect_consecutive_events strftime (with_rows df post) col thr minc cmp)).
  split; [apply (detect_run_category _ _ _ _ _ _ _ Hin Hpre Hc)|].
  split; [apply (detect_run_category _ _ _ _ _ _ _ Hin Hpost Hc)|].
  rewrite (detect_run_category _ _ _ _ _ _ _ Hin Hcl Hc).
  split; intros Hlen.
  - split; [|reflexivity].
    rewrite (run_decomposition strftime df col thr minc cmp test pre run post)
      by (try assumption; try lia; intros ->; simpl in Hlen; lia).
    replace (Nat.leb minc (length run)) with true by (symmetry; apply Nat.leb_le; lia).
    rewrite !List.map_app. reflexivity.
  - rewrite (run_decomposition strftime df col thr minc cmp test pre run post)
      by (try assumption; try lia; intros ->; simpl in Hlen; lia).
    replace (Nat.leb minc (length run)) with false by (symmetry; apply Nat.leb_gt; lia).
    rewrite !List.map_app. reflexivity.
Qed.

Lemma run_of_minimum_length_witness :
  exists before after,
    returned_at "heatwaves"
      (detect_extreme_events Iso.strftime (with_rows (Sample.heat 3) [])) = Some before /\
    returned_at "heatwaves"
      (detect_extreme_events Iso.strftime (with_rows (Sample.heat 3) [])) = Some after /\
    (length (rows (Sample.heat 3)) = 3%nat ->
     returned_at "heatwaves" (detect_extreme_events Iso.strftime (Sample.heat 3))
       = Some (before
               ++ [RunEvent (run_event_pure Iso.strftime "TMAX" (rows (Sample.heat 3)))]
               ++ after) /\
     duration (run_event_pure Iso.strftime "TMAX" (rows (Sample.heat 3)))
       = length (rows (Sample.heat 3))) /\
    (S (length (rows (Sample.heat 3))) = 3%nat ->
     returned_at "heatwaves" (detect_extreme_events Iso.strftime (Sample.heat 3))
       = Some (before ++ after)).
Proof.
  apply (run_of_minimum_length Iso.strftime (Sample.heat 3) "heatwaves" "TMAX" 90%Q 3 ">"
           [] (rows (Sample.heat 3)) []).
  - simpl. auto.
  - split; [reflexivity|]. repeat constructor; eexists; reflexivity.
  - reflexivity.
  - reflexivity.
  - repeat constructor.
  - intros pre' r H. destruct pre'; discriminate.
  - intros r post' H. discriminate.
Defined.

(** Three consecutive records of 91 degrees give one heatwave of
    duration 3; two give none. *)
Example three_hot_days :
  returned_at "heatwaves" (detect_extreme_events Iso.strftime (Sample.heat 3))
  = Some [RunEvent (mkRun "2024-01-01" "2024-01-03" 3
                          (Some 91%Q) (Some 91%Q) (Some (273 # 3)))].
Proof. vm_compute. reflexivity. Qed.

Example two_hot_days :
  returned_at "heatwaves" (detect_extreme_events Iso.strftime (Sample.heat 2)) = Some [].
Proof. vm_compute. reflexivity. Qed.

(** ** Further properties of cleaning *)

Lemma mapM_raises {A B} (f : A -> result B) (l : list A) a e :
  In a l -> f a = Raise e -> exists e', mapM f l = Raise e'.
Proof.
  induction l as [|x l IH]; intros Hin Hf; [destruct Hin|].
  simpl. destruct Hin as [->|Hin].
  - rewrite Hf. simpl. eauto.
  - destruct (f x); simpl; [|eauto].
    destruct (IH Hin Hf) as [e' ->]. simpl. eauto.
Qed.

(** X1: when the date column is missing, or one of its dates is a string
    that [pd.to_datetime] rejects, [clean_weather_data] returns its input
    exactly as it was given: nothing is dropped, trimmed or sorted. *)
Theorem clean_returns_input_on_bad_dates
    (to_timestamp : string -> option Z) (df : frame) :
  has_column df "date" = false \/
  (exists r s, In r (rows df) /\ r_date r = DateStr s /\ to_timestamp s = None) ->
  clean_weather_data to_timestamp df = Ok df.
Proof.
  intros H. unfold clean_weather_data. destruct (empty df); [reflexivity|].
  rewrite clean_body_stages. unfold coerce_dates.
  destruct (has_column df "date") eqn:Hd.
  - destruct H as [H|(r & s & Hin & Hr & Hs)]; [discriminate|].
    unfold to_datetime. rewrite Hd.
    destruct (mapM_raises (to_datetime_cell to_timestamp) (map r_date (rows df))
                (r_date r) ValueError) as [e He].
    + apply List.in_map, Hin.
    + rewrite Hr. simpl. rewrite Hs. reflexivity.
    + rewrite He. reflexivity.
  - simpl. unfold dropna_date. rewrite Hd. reflexivity.
Qed.

Lemma clean_returns_input_on_bad_dates_witness :
  clean_weather_data Iso.to_timestamp Sample.unparseable = Ok Sample.unparseable.
Proof.
  apply (clean_returns_input_on_bad_dates Iso.to_timestamp Sample.unparseable).
  right. exists (Sample.prcp_row (DateStr "not a date") 0), "not a date".
  split; [|split].
  - simpl. auto.
  - reflexivity.
  - reflexivity.
Defined.

Lemma filter_sublist {A} (f : A -> bool) (l : list A) : List.filter f l `sublist_of` l.
Proof.
  induction l as [|a l IH]; simpl; [constructor|].
  destruct (f a); [apply sublist_skip | apply sublist_cons]; exact IH.
Qed.

Lemma trim_outliers_sub col df : rows (trim_outliers col df) ⊆+ rows df.
Proof.
  unfold trim_outliers. destruct (has_column df col); [|reflexivity].
  cbn [rows with_rows]. apply sublist_submseteq, filter_sublist.
Qed.

Lemma drop_negative_sub col df : rows (drop_negative col df) ⊆+ rows df.
Proof.
  unfold drop_negative. destruct (has_column df col); [|reflexivity].
  cbn [rows with_rows]. apply sublist_submseteq, filter_sublist.
Qed.

Lemma filter_and_sort_sub df : rows (filter_and_sort df) ⊆+ rows df.
Proof.
  unfold filter_and_sort. cbn [rows with_rows fold_left temp_cols].
  rewrite sort_values_date_perm.
  etrans; [apply drop_negative_sub|].
  etrans; [apply drop_negative_sub|].
  etrans; [apply trim_outliers_sub|].
  etrans; [apply trim_outliers_sub|].
  apply trim_outliers_sub.
Qed.

Lemma zip_with_set_date_coerced to_timestamp rs ds :
  mapM (to_datetime_cell to_timestamp) (map r_date rs) = Ok ds ->
  zip_with set_date ds rs = map (coerce_record to_timestamp) rs.
Proof.
  revert ds. induction rs as [|r rs IH]; intros ds H; cbn [map mapM] in H.
  - inversion H. reflexivity.
  - destruct (to_datetime_cell to_timestamp (r_date r)) as [d|e] eqn:E;
      cbn [rbind] in H; [|discriminate].
    destruct (mapM (to_datetime_cell to_timestamp) (map r_date rs)) as [ds'|e] eqn:E';
      cbn [rbind] in H; [|discriminate].
    inversion H; subst. cbn [zip_with map]. rewrite (IH ds' eq_refl).
    unfold coerce_record at 2. rewrite E. reflexivity.
Qed.

Lemma coerce_dates_sub to_timestamp df d :
  coerce_dates to_timestamp df = Ok d ->
  rows d ⊆+ map (coerce_record to_timestamp) (rows df).
Proof.
  unfold coerce_dates. destruct (has_column df "date") eqn:Hd.
  - destruct (to_datetime to_timestamp df) as [ds|e] eqn:E; simpl; [|discriminate].
    unfold to_datetime in E. rewrite Hd in E.
    unfold dropna_date.
    rewrite (has_column_columns df _ "date" (assign_date_columns df ds Hd)), Hd.
    intros H. inversion H; subst; clear H.
    unfold with_rows, assign_date. cbn [rows].
    rewrite (zip_with_set_date_coerced _ _ _ E).
    apply sublist_submseteq, filter_sublist.
  - simpl. unfold dropna_date. rewrite Hd. discriminate.
Qed.

(** X2: on every input, [clean_weather_data] only drops and reorders
    records.  It returns the same columns and at most as many records,
    and its result is either the input itself or a series whose records
    are, counted with multiplicity, among the input records after date
    coercion (the date replaced by its Timestamp, every measurement as it
    was): no record is invented, duplicated or altered. *)
Theorem clean_only_drops_and_reorders
    (to_timestamp : string -> option Z) (df : frame) :
  exists out,
    clean_weather_data to_timestamp df = Ok out /\
    columns out = columns df /\
    (length (rows out) <= length (rows df))%nat /\
    (out = df \/ rows out ⊆+ map (coerce_record to_timestamp) (rows df)).
Proof.
  unfold clean_weather_data. destruct (empty df).
  { exists df. repeat split; [lia | left; reflexivity]. }
  rewrite clean_body_stages.
  destruct (coerce_dates to_timestamp df) as [d|e] eqn:Hcd; simpl.
  - exists (filter_and_sort d).
    destruct (coerce_dates_inv _ _ _ Hcd) as (_ & Hcols & _).
    assert (Hsub : rows (filter_and_sort d) ⊆+ map (coerce_record to_timestamp) (rows df)).
    { etrans; [apply filter_and_sort_sub | apply (coerce_dates_sub _ _ _ Hcd)]. }
    split; [reflexivity|]. split; [|split].
    + rewrite filter_and_sort_columns. exact Hcols.
    + apply submseteq_length in Hsub. rewrite List.length_map in Hsub. exact Hsub.
    + right. exact Hsub.
  - exists df. repeat split; [lia | left; reflexivity].
Qed.

Lemma drop_negative_nonnegative col df :
  has_column df col = true ->
  Forall (fun r => exists q, cell col r = Some q /\ (0 <= q)%Q)
         (rows (drop_negative col df)).
Proof.
  intros H. unfold drop_negative. rewrite H. cbn [rows with_rows].
  apply List.Forall_forall. intros r Hr. apply List.filter_In in Hr.
  destruct Hr as [_ Hr]. destruct (cell col r) as [q|]; [|discriminate].
  exists q. split; [reflexivity|]. simpl in Hr. apply Qle_bool_iff in Hr. exact Hr.
Qed.

(** X3: for every input whose date column exists and parses, no record
    returned by [clean_weather_data] has a negative or missing value in
    the precipitation column PRCP or the wind column AWND, when the
    column is there. *)
Theorem clean_sign_constraints
    (to_timestamp : string -> option Z) (df : frame) (col : string) :
  col = "PRCP" \/ col = "AWND" ->
  has_column df col = true ->
  has_column df "date" = true ->
  Forall (fun r => parses to_timestamp (r_date r)) (rows df) ->
  exists out,
    clean_weather_data to_timestamp df = Ok out /\
    Forall (fun r => exists q, cell col r = Some q /\ (0 <= q)%Q) (rows out).
Proof.
  intros Hcol Hc Hd Hp. unfold clean_weather_data.
  destruct (empty df) eqn:He.
  - exists df. split; [reflexivity|]. rewrite (empty_rows _ _ Hd He). constructor.
  - rewrite clean_body_stages.
    destruct (coerce_dates_ok _ _ Hd Hp) as [d Hcd]. rewrite Hcd. simpl.
    eexists. split; [reflexivity|].
    destruct (coerce_dates_inv _ _ _ Hcd) as (_ & Hcols & _).
    unfold filter_and_sort. cbn [rows with_rows fold_left temp_cols].
    apply sort_values_date_Forall.
    destruct Hcol as [-> | ->].
    + apply drop_negative_Forall, drop_negative_nonnegative.
      rewrite (has_column_columns df); [exact Hc|].
      rewrite !trim_outliers_columns. exact Hcols.
    + apply drop_negative_nonnegative.
      rewrite (has_column_columns df); [exact Hc|].
      rewrite drop_negative_columns, !trim_outliers_columns. exact Hcols.
Qed.

Lemma clean_sign_constraints_witness :
  exists out,
    clean_weather_data Iso.to_timestamp Sample.rain_days = Ok out /\
    Forall (fun r => exists q, cell "PRCP" r = Some q /\ (0 <= q)%Q) (rows out).
Proof.
  apply (clean_sign_constraints Iso.to_timestamp Sample.rain_days "PRCP").
  - left. reflexivity.
  - reflexivity.
  - reflexivity.
  - repeat constructor; vm_compute; eauto.
Defined.

(** ** Further properties of the detector *)

Lemma keeps_keys_ret {A} D (a : A) : keeps_keys D (mret a).
Proof. intros s H. exact H. Qed.

Lemma keeps_keys_lift {A} D (r : result A) : keeps_keys D (mlift r).
Proof. intros s H. exact H. Qed.

Lemma keeps_keys_bind {A B} D (m : M (gmap string (list event)) A)
    (f : A -> M (gmap string (list event)) B) :
  keeps_keys D m -> (forall a, keeps_keys D (f a)) -> keeps_keys D (mbind m f).
Proof.
  intros Hm Hf s Hs. unfold mbind. specialize (Hm s Hs).
  destruct (m s) as [[a|e] s']; simpl in *.
  - apply Hf, Hm.
  - exact Hm.
Qed.

Lemma keeps_keys_when D b (m : M (gmap string (list event)) unit) :
  keeps_keys D m -> keeps_keys D (when_ b m).
Proof. destruct b; simpl; [auto | intros _; apply keeps_keys_ret]. Qed.

Lemma keeps_keys_mfor {A} D (l : list A) (body : A -> M (gmap string (list event)) unit) :
  (forall a, keeps_keys D (body a)) -> keeps_keys D (mfor l body).
Proof.
  intros Hb. induction l as [|a l IH]; simpl.
  - apply keeps_keys_ret.
  - apply keeps_keys_bind; auto.
Qed.

Lemma keeps_keys_insert (D : gset string) k v :
  k ∈ D -> keeps_keys D (mmodify (insert k v)).
Proof. intros Hk s Hs. simpl. rewrite dom_insert_L, Hs. set_solver. Qed.

Lemma keeps_keys_append (D : gset string) k e : keeps_keys D (mmodify (append_event k e)).
Proof.
  intros s Hs. simpl. unfold append_event.
  destruct (s !! k) as [l|] eqn:E; [|exact Hs].
  rewrite dom_insert_L, Hs.
  assert (k ∈ D) by (rewrite <- Hs; apply elem_of_dom; eauto).
  set_solver.
Qed.

Lemma keeps_keys_point_events strftime D df key field column selected severity :
  keeps_keys D (point_events strftime df key field column selected severity).
Proof.
  unfold point_events. apply keeps_keys_mfor. intros day.
  apply keeps_keys_bind; [apply keeps_keys_lift|]. intros d.
  apply keeps_keys_bind; [apply keeps_keys_lift|]. intros s.
  apply keeps_keys_append.
Qed.

Lemma initial_events_keys : dom initial_events = category_keys.
Proof.
  unfold initial_events, category_keys. rewrite !dom_insert_L, dom_empty_L.
  cbn [category_source map fst list_to_set]. set_solver.
Qed.

(** X4: whatever the input, and whether or not the detection runs to its
    end, the dictionary returned by [detect_extreme_events] has exactly
    the six category keys. *)
Theorem detect_always_six_keys (strftime : Z -> string) (df : frame) :
  exists events,
    detect_extreme_events strftime df = Ok events /\
    forall k, is_Some (events !! k) <-> In k (map fst category_source).
Proof.
  assert (Hkeys : forall (m : gmap string (list event)),
             dom m = category_keys ->
             forall k, is_Some (m !! k) <-> In k (map fst category_source)).
  { intros m Hm k. rewrite <- elem_of_dom, Hm. unfold category_keys.
    rewrite elem_of_list_to_set. apply list_elem_of_In. }
  destruct (empty df) eqn:He.
  - exists initial_events. unfold detect_extreme_events. rewrite He.
    split; [reflexivity|]. apply Hkeys, initial_events_keys.
  - rewrite (detect_result _ _ He). eexists. split; [reflexivity|].
    apply Hkeys.
    assert (Hk : keeps_keys category_keys (detect_body strftime df));
      [|apply Hk, initial_events_keys].
    unfold detect_body.
    repeat (apply keeps_keys_bind; [|intros _]);
      apply keeps_keys_when;
      first [ apply keeps_keys_point_events
            | apply keeps_keys_insert; unfold category_keys;
              apply elem_of_list_to_set, list_elem_of_In; simpl; tauto ].
Qed.

(** Point events on a cleaned series *)

Lemma point_events_exact strftime df key field column severity selected :
  cleaned df ->
  (forall r, In r selected -> In r (rows df)) ->
  forall s l,
    s !! key = Some l ->
    exists s',
      point_events strftime df key field column selected severity s = (Ok tt, s') /\
      s' !! key =
      Some (l ++ map (fun day => PointEvent (mkPoint (strftime (ts_key (r_date day))) field
                                               (cell column day) (severity day)))
                     selected).
Proof.
  intros [Hd Ht] Hsub. unfold point_events.
  induction selected as [|day sel IH]; intros s l Hl; cbn [mfor map].
  - exists s. split; [reflexivity|]. rewrite List.app_nil_r. exact Hl.
  - assert (Hday : is_timestamp (r_date day)).
    { rewrite List.Forall_forall in Ht. apply Ht, Hsub. left. reflexivity. }
    destruct Hday as [t Hday].
    erewrite mbind_ok
      by (unfold mbind, mlift, row_date; rewrite Hd, Hday; reflexivity).
    destruct (IH (fun r Hr => Hsub r (or_intror Hr))
                 (append_event key
                    (PointEvent (mkPoint (strftime t) field (cell column day) (severity day))) s)
                 (l ++ [PointEvent (mkPoint (strftime t) field (cell column day)
                                            (severity day))]))
      as (s' & Hs' & Hl').
    + unfold append_event. rewrite Hl. apply lookup_insert_eq.
    + exists s'. split; [exact Hs'|]. rewrite Hl', Hday, <- List.app_assoc. reflexivity.
Qed.

Lemma when_modify_lookup (b : bool) (k k' : string) (v : list event)
    (s : gmap string (list event)) :
  k <> k' -> (if b then <[k' := v]> s else s) !! k = s !! k.
Proof. intros H. destruct b; [apply lookup_insert_ne; congruence | reflexivity]. Qed.

Lemma point_category_returned
    (strftime : Z -> string) (df : frame) (key field col : string) (thr : Q) :
  In (key, field, col, thr) point_categories ->
  cleaned df ->
  has_column df col = true ->
  returned_at key (detect_extreme_events strftime df) =
  Some (map (point_event_of strftime key field col)
            (List.filter (fun r => num_gt (cell col r) (Some thr)) (rows df))).
Proof.
  intros Hin Hcl Hc.
  destruct (empty df) eqn:He.
  { unfold detect_extreme_events. rewrite He. cbn [returned_at].
    rewrite (empty_rows df "date") by (apply Hcl || exact He).
    simpl in Hin. destruct Hin as [E|[E|[E|[]]]]; inversion E; subst; vm_compute; reflexivity. }
  rewrite (detect_result _ _ He). cbn [returned_at]. unfold detect_body.
  simpl in Hin. destruct Hin as [E|[E|[E|[]]]]; inversion E; subst; clear E.
  - rewrite Hc.
    erewrite mbind_ok by apply when_modify_ok.
    erewrite mbind_ok by apply when_modify_ok.
    match goal with
    | |- context [mbind (when_ true (point_events _ _ _ _ _ ?sel ?sev)) _ ?s] =>
        assert (Hsub : forall r, In r sel -> In r (rows df))
          by (intros r Hr; apply List.filter_In in Hr; apply Hr);
        assert (Hlook : s !! "heavy_rainfall" = Some [])
          by (rewrite !when_modify_lookup by discriminate; vm_compute; reflexivity);
        destruct (point_events_exact strftime df "heavy_rainfall" "precipitation" "PRCP"
                    sev sel Hcl Hsub s [] Hlook) as (s3 & H3 & Hl3)
    end.
    erewrite mbind_ok by exact H3.
    match goal with
    | |- snd (?rest ?s) !! _ = _ =>
        assert (Hp : preserves "heavy_rainfall" rest) by preserved; rewrite Hp
    end.
    rewrite Hl3. reflexivity.
  - erewrite mbind_ok by apply when_modify_ok.
    erewrite mbind_ok by apply when_modify_ok.
    match goal with
    | |- context [mbind (when_ ?b (point_events _ _ _ _ _ (List.filter ?f _) ?sev)) _ ?s] =>
        destruct (when_point_events_ok strftime df b "heavy_rainfall" "precipitation" "PRCP"
                    f sev s Hcl) as [s3 H3];
        assert (Hk3 : s3 !! "snowstorms" = s !! "snowstorms")
    end.
    { match type of H3 with
      | ?m ?s = _ =>
          assert (Hp : preserves "snowstorms" m) by preserved;
          specialize (Hp s); rewrite H3 in Hp; exact Hp
      end. }
    erewrite mbind_ok by exact H3. rewrite Hc.
    match goal with
    | |- context [mbind (when_ true (point_events _ _ _ _ _ ?sel ?sev)) _ ?s] =>
        assert (Hsub : forall r, In r sel -> In r (rows df))
          by (intros r Hr; apply List.filter_In in Hr; apply Hr);
        assert (Hlook : s !! "snowstorms" = Some [])
          by (rewrite Hk3, !when_modify_lookup by discriminate; vm_compute; reflexivity);
        destruct (point_events_exact strftime df "snowstorms" "snowfall" "SNOW"
                    sev sel Hcl Hsub s [] Hlook) as (s4 & H4 & Hl4)
    end.
    erewrite mbind_ok by exact H4.
    match goal with
    | |- snd (?rest ?s) !! _ = _ =>
        assert (Hp : preserves "snowstorms" rest) by preserved; rewrite Hp
    end.
    rewrite Hl4. reflexivity.
  - erewrite mbind_ok by apply when_modify_ok.
    erewrite mbind_ok by apply when_modify_ok.
    match goal with
    | |- context [mbind (when_ ?b (point_events _ _ _ _ _ (List.filter ?f _) ?sev)) _ ?s] =>
        destruct (when_point_events_ok strftime df b "heavy_rainfall" "precipitation" "PRCP"
                    f sev s Hcl) as [s3 H3];
        assert (Hk3 : s3 !! "high_winds" = s !! "high_winds")
    end.
    { match type of H3 with
      | ?m ?s = _ =>
          assert (Hp : preserves "high_winds" m) by preserved;
          specialize (Hp s); rewrite H3 in Hp; exact Hp
      end. }
    erewrite mbind_ok by exact H3.
    match goal with
    | |- context [mbind (when_ ?b (point_events _ _ _ _ _ (List.filter ?f _) ?sev)) _ ?s] =>
        destruct (when_point_events_ok strftime df b "snowstorms" "snowfall" "SNOW"
                    f sev s Hcl) as [s4 H4];
        assert (Hk4 : s4 !! "high_winds" = s !! "high_winds")
    end.
    { match type of H4 with
      | ?m ?s = _ =>
          assert (Hp : preserves "high_winds" m) by preserved;
          specialize (Hp s); rewrite H4 in Hp; exact Hp
      end. }
    erewrite mbind_ok by exact H4. rewrite Hc.
    match goal with
    | |- context [mbind (when_ true (point_events _ _ _ _ _ ?sel ?sev)) _ ?s] =>
        assert (Hsub : forall r, In r sel -> In r (rows df))
          by (intros r Hr; apply List.filter_In in Hr; apply Hr);
        assert (Hlook : s !! "high_winds" = Some [])
          by (rewrite Hk4, Hk3, !when_modify_lookup by discriminate; vm_compute; reflexivity);
        destruct (point_events_exact strftime df "high_winds" "wind_speed" "AWND"
                    sev sel Hcl Hsub s [] Hlook) as (s5 & H5 & Hl5)
    end.
    erewrite mbind_ok by exact H5.
    match goal with
    | |- snd (?rest ?s) !! _ = _ =>
        assert (Hp : preserves "high_winds" rest) by preserved; rewrite Hp
    end.
    rewrite Hl5. reflexivity.
Qed.

(** X5: on a cleaned series with the category's column, the heavy
    rainfall, snowstorm and high wind entries of [detect_extreme_events]
    hold exactly one event per record above the threshold (2.0, 6.0,
    20.0), in series order, with that record's date, value and severity;
    no minimum run length applies. *)
Theorem point_events_one_per_record
    (strftime : Z -> string) (df : frame) (key field col : string) (thr : Q) :
  In (key, field, col, thr) point_categories ->
  cleaned df ->
  has_column df col = true ->
  returned_at key (detect_extreme_events strftime df) =
  Some (map (point_event_of strftime key field col)
            (List.filter (fun r => num_gt (cell col r) (Some thr)) (rows df))).
Proof. apply point_category_returned. Qed.

Lemma point_events_one_per_record_witness :
  returned_at "high_winds" (detect_extreme_events Iso.strftime (Sample.wind_at 30)) =
  Some (map (point_event_of Iso.strftime "high_winds" "wind_speed" "AWND")
            (List.filter (fun r => num_gt (cell "AWND" r) (Some 20%Q))
                         (rows (Sample.wind_at 30)))).
Proof.
  apply (point_events_one_per_record Iso.strftime (Sample.wind_at 30)
           "high_winds" "wind_speed" "AWND" 20%Q).
  - simpl. auto.
  - split; [reflexivity|]. repeat constructor. eexists; reflexivity.
  - reflexivity.
Defined.

(** Detection on dates that were never coerced *)

Lemma stuck_bind {S A B} (m : M S A) (f : A -> M S B) s :
  stuck m s -> (forall a, stuck (f a) s) -> stuck (mbind m f) s.
Proof.
  unfold stuck, mbind. intros Hm Hf.
  destruct (m s) as [[a|e] s']; simpl in *; subst s'; [apply Hf | reflexivity].
Qed.

Lemma stuck_mfor {S A} (l : list A) (body : A -> M S unit) s :
  (forall a, In a l -> stuck (body a) s) -> stuck (mfor l body) s.
Proof.
  induction l as [|a l IH]; intros H; simpl; [reflexivity|].
  apply stuck_bind; [apply H; left; reflexivity|].
  intros _. apply IH. intros; apply H; right; assumption.
Qed.

Lemma stuck_when {S} b (m : M S unit) s : stuck m s -> stuck (when_ b m) s.
Proof. destruct b; simpl; [auto | reflexivity]. Qed.

Lemma strftime_cell_raises strftime d :
  ~ is_timestamp d -> exists e, strftime_cell strftime d = Raise e.
Proof.
  intros H. destruct d as [s|t|]; simpl; eauto.
  exfalso. apply H. eexists; reflexivity.
Qed.

Lemma run_event_of_raises strftime df column g :
  Forall (fun r => ~ is_timestamp (r_date r)) g ->
  exists e, run_event_of strftime df column g = Raise e.
Proof.
  intros H. unfold run_event_of. destruct g as [|r g]; simpl; [eauto|].
  unfold row_date. destruct (has_column df "date"); simpl; [|eauto].
  inversion H as [|? ? Hr _]; subst.
  destruct (strftime_cell_raises strftime _ Hr) as [e ->]. simpl. eauto.
Qed.

Lemma no_timestamp_no_run strftime df column threshold minc comparison :
  Forall (fun r => ~ is_timestamp (r_date r)) (rows df) ->
  _detect_consecutive_events strftime df column threshold minc comparison = [].
Proof.
  intros H. unfold _detect_consecutive_events.
  change (stuck (consecutive_body strftime df column threshold minc comparison) []).
  unfold consecutive_body. apply stuck_bind; [reflexivity|]. intros col.
  destruct (comparison_mask comparison threshold col) as [mask|]; [|reflexivity].
  apply stuck_mfor. intros k _. apply stuck_when.
  destruct (run_event_of_raises strftime df column
              (group_rows (rows df) (consecutive_groups mask) k)) as [e He].
  - apply List.Forall_forall. intros r Hr. apply group_rows_in in Hr.
    rewrite List.Forall_forall in H. apply H, Hr.
  - unfold stuck, mbind, mlift. rewrite He. reflexivity.
Qed.

Lemma point_events_stuck strftime df key field column selected severity s :
  Forall (fun r => ~ is_timestamp (r_date r)) selected ->
  stuck (point_events strftime df key field column selected severity) s.
Proof.
  intros H. unfold point_events. apply stuck_mfor. intros day Hday.
  rewrite List.Forall_forall in H. specialize (H day Hday).
  unfold stuck, mbind, mlift, row_date.
  destruct (has_column df "date"); [|reflexivity].
  destruct (strftime_cell_raises strftime _ H) as [e ->]. reflexivity.
Qed.

Lemma insert_empty_initial k :
  initial_events !! k = Some [] ->
  stuck (mmodify (insert k (map RunEvent []))) initial_events.
Proof. intros H. unfold stuck. simpl. apply insert_id, H. Qed.

(** X6: on a series none of whose dates is a Timestamp (a series that
    was never cleaned, say), [detect_extreme_events] reports nothing:
    every category comes back empty, whatever the measurements are. *)
Theorem detect_reports_nothing_without_timestamps (strftime : Z -> string) (df : frame) :
  Forall (fun r => ~ is_timestamp (r_date r)) (rows df) ->
  detect_extreme_events strftime df = Ok initial_events.
Proof.
  intros H. destruct (empty df) eqn:He.
  { unfold detect_extreme_events. rewrite He. reflexivity. }
  rewrite (detect_result _ _ He). f_equal.
  change (stuck (detect_body strftime df) initial_events).
  assert (Hsel : forall f, Forall (fun r => ~ is_timestamp (r_date r))
                                  (List.filter f (rows df))).
  { intros f. apply filter_Forall, H. }
  unfold detect_body. rewrite !no_timestamp_no_run by exact H.
  repeat (apply stuck_bind; [|intros _]); apply stuck_when;
    first [ apply point_events_stuck, Hsel
          | apply insert_empty_initial; vm_compute; reflexivity ].
Qed.

Lemma detect_reports_nothing_without_timestamps_witness :
  detect_extreme_events Iso.strftime Sample.raw_heat = Ok initial_events.
Proof.
  apply (detect_reports_nothing_without_timestamps Iso.strftime Sample.raw_heat).
  repeat constructor; intros [t Ht]; discriminate.
Defined.

(** Inside a reported run every record qualifies *)

Lemma ids_from_groups a prev l :
  (forall b i, In (b, i) (combine l (ids_from a prev l)) -> i = a -> b = prev) /\
  (forall b b' i, In (b, i) (combine l (ids_from a prev l)) ->
                  In (b', i) (combine l (ids_from a prev l)) -> b = b').
Proof.
  revert a prev. induction l as [|c t IH]; intros a prev.
  { split; intros; simpl in *; contradiction. }
  rewrite ids_from_cons.
  set (a' := if xorb c prev then S a else a).
  destruct (IH a' c) as [IH1 IH2].
  assert (Hge : forall b i, In (b, i) (combine t (ids_from a' c t)) -> (a' <= i)%nat).
  { intros b i Hin. apply in_combine_r in Hin.
    pose proof (ids_from_range a' c t) as Hr. rewrite List.Forall_forall in Hr.
    apply Hr in Hin. lia. }
  assert (Hhead : a' = a -> c = prev).
  { subst a'. destruct c, prev; simpl; intros; try reflexivity; lia. }
  assert (Hle : (a <= a')%nat) by (subst a'; destruct (xorb c prev); lia).
  cbn [combine]. split.
  - intros b i [E|Hin] Hi.
    + injection E as Eb Ei. rewrite <- Eb. apply Hhead. congruence.
    + pose proof (Hge _ _ Hin) as Hg. assert (Ha : a' = a) by lia.
      rewrite <- (Hhead Ha). apply (IH1 b i Hin). congruence.
  - intros b b' i [E|Hin] [E'|Hin'].
    + congruence.
    + injection E as Eb Ei. rewrite <- Eb. symmetry. apply (IH1 b' i Hin'). congruence.
    + injection E' as Eb Ei. rewrite <- Eb. apply (IH1 b i Hin). congruence.
    + apply (IH2 b b' i Hin Hin').
Qed.

Lemma in_combine_map {A B C} (f : A -> B) (l : list A) (m : list C) a c :
  In (a, c) (combine l m) -> In (f a, c) (combine (map f l) m).
Proof.
  revert m. induction l as [|x l IH]; intros [|y m] H; simpl in *; try contradiction.
  destruct H as [E|H]; [inversion E; left; reflexivity | right; apply IH, H].
Qed.

Lemma group_all_qualify (T : row -> bool) rs k :
  (1 <= group_count (map T rs) (consecutive_groups (map T rs)) k)%nat ->
  Forall (fun r => T r = true) (group_rows rs (consecutive_groups (map T rs)) k).
Proof.
  intros Hc.
  assert (Hw : In (true, k) (combine (map T rs) (consecutive_groups (map T rs)))).
  { unfold group_count in Hc.
    destruct (List.filter _ _) as [|[b i] rest] eqn:E; [simpl in Hc; lia|].
    assert (Hin : In (b, i) (List.filter
                     (fun bi => fst bi && Nat.eqb (snd bi) k)
                     (combine (map T rs) (consecutive_groups (map T rs)))))
      by (rewrite E; left; reflexivity).
    apply List.filter_In in Hin. destruct Hin as [Hin Hb]. simpl in Hb.
    apply andb_true_iff in Hb. destruct Hb as [-> Hi]. apply Nat.eqb_eq in Hi.
    subst i. exact Hin. }
  apply List.Forall_forall. intros r Hr. unfold group_rows in Hr.
  apply List.in_map_iff in Hr. destruct Hr as ([r' i] & <- & Hr).
  apply List.filter_In in Hr. destruct Hr as [Hr Hi]. simpl in Hi.
  apply Nat.eqb_eq in Hi. subst i. simpl.
  apply (in_combine_map T) in Hr.
  rewrite consecutive_groups_ids_from in Hr, Hw.
  destruct (ids_from_groups 0 (negb (hd false (map T rs))) (map T rs)) as [_ H2].
  apply (H2 (T r') true k Hr Hw).
Qed.

Lemma fold_left_Qmin_in l x : In (fold_left Qmin l x) (x :: l).
Proof.
  revert x. induction l as [|y l IH]; intros x; simpl; [auto|].
  destruct (IH (Qmin x y)) as [E|Hin]; [|auto].
  rewrite <- E. unfold Qmin. destruct (Qle_bool x y); auto.
Qed.

Lemma fold_left_Qmax_in l x : In (fold_left Qmax l x) (x :: l).
Proof.
  revert x. induction l as [|y l IH]; intros x; simpl; [auto|].
  destruct (IH (Qmax x y)) as [E|Hin]; [|auto].
  rewrite <- E. unfold Qmax. destruct (Qle_bool x y); auto.
Qed.

Lemma valid_in (col : list num) q : In q (valid col) -> In (Some q) col.
Proof.
  unfold valid. induction col as [|v col IH]; simpl; [tauto|].
  destruct v as [x|]; simpl; [|auto]. intros [->|H]; auto.
Qed.

Lemma comparison_test_missing comparison threshold test :
  comparison_test comparison threshold = Some test -> test None = false.
Proof.
  unfold comparison_test.
  repeat match goal with
         | |- context [String.eqb ?a ?b] =>
             destruct (String.eqb a b); [intros E; inversion E; reflexivity|]
         end.
  discriminate.
Qed.

Lemma extremes_qualify (test : num -> bool) (col : list num) :
  test None = false ->
  col <> [] ->
  Forall (fun v => test v = true) col ->
  test (series_min col) = true /\ test (series_max col) = true.
Proof.
  intros Hnone Hne Hall.
  assert (Hvalid : valid col <> []).
  { destruct col as [|v col]; [congruence|].
    inversion Hall as [|? ? Hv _]; subst.
    destruct v; [discriminate | congruence]. }
  rewrite List.Forall_forall in Hall.
  unfold series_min, series_max.
  destruct (valid col) as [|q qs] eqn:E; [congruence|].
  split; apply Hall, valid_in; rewrite E;
    [apply fold_left_Qmin_in | apply fold_left_Qmax_in].
Qed.

(** X7: on a cleaned series, every heatwave, cold spell and drought
    period that [detect_extreme_events] reports lasts at least the
    category minimum, and the smallest and the largest value recorded
    inside it both satisfy the category's rule (above 90, below 32,
    equal to 0): no record inside a reported run fails the rule. *)
Theorem run_events_qualify
    (strftime : Z -> string) (df : frame) (key col : string) (thr : Q) (minc : nat)
    (cmp : string) (events : list event) (e : run_event) :
  In (key, col, thr, minc, cmp) run_categories ->
  cleaned df ->
  has_column df col = true ->
  returned_at key (detect_extreme_events strftime df) = Some events ->
  In (RunEvent e) events ->
  (minc <= duration e)%nat /\
  qualifies cmp thr (min_value e) = true /\
  qualifies cmp thr (max_value e) = true.
Proof.
  intros Hin Hcl Hc Hret He.
  destruct (run_category_test _ _ _ _ _ Hin) as (Hm3 & test & Htest).
  rewrite (detect_run_category _ _ _ _ _ _ _ Hin Hcl Hc) in Hret.
  inversion Hret; subst events; clear Hret.
  apply List.in_map_iff in He. destruct He as (e' & E & He). inversion E; subst e'; clear E.
  unfold qualifies. rewrite Htest.
  rewrite (detect_consecutive_groups strftime df col thr minc cmp test
             (S (list_max (consecutive_groups (map test (map (cell col) (rows df))))))
             Hcl Hc Htest) in He by lia.
  rewrite (List.map_map (cell col) test) in He.
  apply List.in_flat_map in He. destruct He as (k & _ & He).
  unfold per_group in He.
  destruct (Nat.leb minc (group_count _ _ k)) eqn:Ecount; [|destruct He].
  destruct (Nat.leb minc (length _)) eqn:Elen; [|destruct He].
  destruct He as [<-|[]]. apply Nat.leb_le in Ecount, Elen.
  split; [exact Elen|]. cbn [min_value max_value run_event_pure].
  pose proof (group_all_qualify (fun r => test (cell col r)) (rows df) k) as Hq.
  set (g := group_rows (rows df)
              (consecutive_groups (map (fun r => test (cell col r)) (rows df))) k) in *.
  apply extremes_qualify.
  - apply (comparison_test_missing _ _ _ Htest).
  - destruct g; [simpl in Elen; lia | discriminate].
  - apply List.Forall_map. apply Hq. lia.
Qed.

Lemma run_events_qualify_witness :
  (3 <= duration (run_event_pure Iso.strftime "TMAX" (rows (Sample.heat 3))))%nat /\
  qualifies ">" 90%Q (min_value (run_event_pure Iso.strftime "TMAX" (rows (Sample.heat 3))))
    = true /\
  qualifies ">" 90%Q (max_value (run_event_pure Iso.strftime "TMAX" (rows (Sample.heat 3))))
    = true.
Proof.
  apply (run_events_qualify Iso.strftime (Sample.heat 3) "heatwaves" "TMAX" 90%Q 3 ">"
           [RunEvent (run_event_pure Iso.strftime "TMAX" (rows (Sample.heat 3)))]).
  - simpl. auto.
  - split; [reflexivity|]. repeat constructor; eexists; reflexivity.
  - reflexivity.
  - vm_compute. reflexivity.
  - left. reflexivity.
Defined.

(** ** Further properties of the analyzer *)

Lemma assign_date_same df :
  has_column df "date" = true -> assign_date df (map r_date (rows df)) = df.
Proof.
  intros H. unfold assign_date. rewrite H, zip_with_set_date_same.
  destruct df. reflexivity.
Qed.

Lemma to_datetime_cleaned to_timestamp df :
  cleaned df -> to_datetime to_timestamp df = Ok (map r_date (rows df)).
Proof.
  intros [Hd Ht]. unfold to_datetime. rewrite Hd.
  apply mapM_timestamps, List.Forall_map, Ht.
Qed.

Lemma merged_frames_cleaned to_timestamp w t :
  cleaned w -> cleaned t ->
  merged_frames to_timestamp (mkCaller w t) = (merge w t, mkCaller w t).
Proof.
  intros Hw Ht. unfold merged_frames, coerce_weather_date, coerce_traffic_date.
  unfold mbind, mget, mlift, mmodify. cbn [weather_df traffic_df].
  rewrite (to_datetime_cleaned _ _ Hw). cbn [weather_df traffic_df].
  rewrite (assign_date_same w) by apply Hw.
  rewrite (to_datetime_cleaned _ _ Ht). cbn [weather_df traffic_df].
  rewrite (assign_date_same t) by apply Ht.
  destruct (merge w t); reflexivity.
Qed.

(** X8: when one of the two tables is empty, or when both already hold
    Timestamps in their date column, [analyze_weather_traffic_correlation]
    and [analyze_extreme_weather_impact] leave the caller's tables exactly
    as they were. *)
Theorem analyses_leave_coerced_frames_untouched
    (to_timestamp : string -> option Z)
    (series_corr pearsonr_p_value : list Q -> list Q -> result num)
    (w t : frame) :
  (empty w = true \/ empty t = true) \/ (cleaned w /\ cleaned t) ->
  snd (analyze_weather_traffic_correlation to_timestamp series_corr pearsonr_p_value
         (mkCaller w t)) = mkCaller w t /\
  snd (analyze_extreme_weather_impact to_timestamp (mkCaller w t)) = mkCaller w t.
Proof.
  intros H. rewrite analyze_correlation_unfold, analyze_impact_unfold.
  destruct (empty w || empty t) eqn:He; [split; reflexivity|].
  destruct H as [[H|H]|[Hw Ht]].
  - rewrite H in He. discriminate.
  - rewrite H, orb_true_r in He. discriminate.
  - rewrite (merged_frames_cleaned _ _ _ Hw Ht).
    destruct (merge w t); split; reflexivity.
Qed.

Lemma analyses_leave_coerced_frames_untouched_witness :
  snd (analyze_weather_traffic_correlation Iso.to_timestamp Iso.series_corr
         Iso.pearsonr_p_value (mkCaller Sample.four_days Sample.one_count))
    = mkCaller Sample.four_days Sample.one_count /\
  snd (analyze_extreme_weather_impact Iso.to_timestamp
         (mkCaller Sample.four_days Sample.one_count))
    = mkCaller Sample.four_days Sample.one_count.
Proof.
  apply (analyses_leave_coerced_frames_untouched Iso.to_timestamp Iso.series_corr
           Iso.pearsonr_p_value Sample.four_days Sample.one_count).
  right. split; (split; [reflexivity | repeat constructor; eexists; reflexivity]).
Defined.

Lemma Qle_bool_abs_opp a q : Qle_bool a (Qabs (- q)) = Qle_bool a (Qabs q).
Proof.
  apply Bool.eq_iff_eq_true. rewrite !Qle_bool_iff, Qabs_opp. reflexivity.
Qed.

(** X9: the strength label depends on the magnitude of the coefficient
    only: a coefficient and its opposite get the same label, and a
    missing (NaN) coefficient is labelled ["negligible"]. *)
Theorem strength_ignores_sign (q : Q) :
  _get_correlation_strength (Some (- q)%Q) = _get_correlation_strength (Some q) /\
  _get_correlation_strength None = "negligible".
Proof.
  split; [|reflexivity].
  unfold _get_correlation_strength, num_abs, num_ge. cbn [option_map].
  rewrite !Qle_bool_abs_opp. reflexivity.
Qed.

(** The date join *)

(** The impact dictionary *)

Lemma impacts_lookup merged_df key col thr :
  In (key, col, thr) impact_conditions ->
  has_column merged_df col = true ->
  has_column merged_df "traffic_volume" = true ->
  impacts_of merged_df !! key = impact_of merged_df col thr.
Proof.
  intros Hin Hc Htv. unfold impacts_of. simpl in Hin.
  destruct Hin as [E|[E|[E|[E|[]]]]]; inversion E; subst;
    rewrite !add_impact_lookup; simpl String.eqb; simpl andb;
    rewrite ?Hc, ?Htv, ?lookup_empty;
    destruct (impact_of merged_df _ _); cbn [andb];
    repeat match goal with
           | |- context [if ?b then _ else _] => destruct b
           end; reflexivity.
Qed.

(** X11: with the condition's column and [traffic_volume] in a non-empty
    joined table, a condition is missing from the result of
    [analyze_extreme_weather_impact] exactly when no joined record is
    above the threshold or none is at or below it; when it is reported,
    its day count is the number of records above the threshold, its two
    averages are the mean traffic volumes of the two groups, and its
    [traffic_reduction] is (normal - extreme) / normal * 100 computed in
    float arithmetic from these two averages. *)
Theorem impact_reported_iff
    (to_timestamp : string -> option Z) (w t merged_df : frame) (s : caller)
    (key col : string) (thr : Q) :
  In (key, col, thr) impact_conditions ->
  empty w = false -> empty t = false ->
  merged_frames to_timestamp (mkCaller w t) = (Ok merged_df, s) ->
  empty merged_df = false ->
  has_column merged_df col = true ->
  has_column merged_df "traffic_volume" = true ->
  let result := fst (analyze_extreme_weather_impact to_timestamp (mkCaller w t)) in
  let extreme := List.filter (fun r => num_gt (cell col r) (Some thr)) (rows merged_df) in
  let normal := List.filter (fun r => num_le (cell col r) (Some thr)) (rows merged_df) in
  (returned_at key result = None <-> extreme = [] \/ normal = []) /\
  (forall r, returned_at key result = Some r ->
             extreme_days r = length extreme /\
             avg_traffic_extreme r = series_mean (map (cell "traffic_volume") extreme) /\
             avg_traffic_normal r = series_mean (map (cell "traffic_volume") normal) /\
             traffic_reduction r =
             fmul (fdiv (fsub (of_num (avg_traffic_normal r)) (of_num (avg_traffic_extreme r)))
                        (of_num (avg_traffic_normal r)))
                  (Finite 100%Q)).
Proof.
  intros Hin Hw Ht Hm He Hc Htv result extreme normal. subst result.
  rewrite analyze_impact_unfold, Hw, Ht, Hm. cbn [orb fst returned_at]. rewrite He.
  rewrite (impacts_lookup _ _ _ _ Hin Hc Htv). unfold impact_of.
  fold extreme normal.
  destruct extreme as [|x xs], normal as [|y ys]; cbn [length Nat.ltb Nat.leb andb].
  - split; [tauto | discriminate].
  - split; [tauto | discriminate].
  - split; [tauto | discriminate].
  - split.
    + split; [discriminate | intros [H|H]; discriminate].
    + intros r Hr. inversion Hr; subst. repeat split.
Qed.

Lemma impact_reported_iff_witness :
  exists merged_df s,
    merged_frames Iso.to_timestamp (mkCaller Sample.hot_then_mild Sample.half_traffic)
      = (Ok merged_df, s) /\
    let result :=
      fst (analyze_extreme_weather_impact Iso.to_timestamp
             (mkCaller Sample.hot_then_mild Sample.half_traffic)) in
    let extreme := List.filter (fun r => num_gt (cell "TMAX" r) (Some 90%Q)) (rows merged_df) in
    let normal := List.filter (fun r => num_le (cell "TMAX" r) (Some 90%Q)) (rows merged_df) in
    (returned_at "heatwave_impact" result = None <-> extreme = [] \/ normal = []) /\
    (forall r, returned_at "heatwave_impact" result = Some r ->
               extreme_days r = length extreme /\
               avg_traffic_extreme r = series_mean (map (cell "traffic_volume") extreme) /\
               avg_traffic_normal r = series_mean (map (cell "traffic_volume") normal) /\
               traffic_reduction r =
               fmul (fdiv (fsub (of_num (avg_traffic_normal r))
                                (of_num (avg_traffic_extreme r)))
                          (of_num (avg_traffic_normal r)))
                    (Finite 100%Q)).
Proof.
  do 2 eexists. split; [vm_compute; reflexivity|].
  eapply (impact_reported_iff Iso.to_timestamp Sample.hot_then_mild Sample.half_traffic
            _ _ "heatwave_impact" "TMAX" 90%Q).
  - simpl. auto.
  - reflexivity.
  - reflexivity.
  - vm_compute. reflexivity.
  - reflexivity.
  - reflexivity.
  - reflexivity.
Defined.

Lemma nonzero_Qeq_bool (n : Q) : ~ (n == 0)%Q -> Qeq_bool n 0 = false.
Proof.
  intros H. destruct (Qeq_bool n 0) eqn:E; [|reflexivity].
  apply Qeq_bool_iff in E. contradiction.
Qed.

(** X12: when a condition is reported with normal-day mean [n] different
    from zero and extreme-day mean [e], its [traffic_reduction] is the
    finite number (n - e) / n * 100.  It is 50 when the extreme days carry
    half the normal traffic, and with positive normal traffic it is
    positive exactly when traffic is lower on extreme days. *)
Theorem relative_change_value
    (to_timestamp : string -> option Z) (w t merged_df : frame) (s : caller)
    (key col : string) (thr : Q) (r : impact_result) (n e : Q) :
  In (key, col, thr) impact_conditions ->
  empty w = false -> empty t = false ->
  merged_frames to_timestamp (mkCaller w t) = (Ok merged_df, s) ->
  empty merged_df = false ->
  has_column merged_df col = true ->
  has_column merged_df "traffic_volume" = true ->
  returned_at key (fst (analyze_extreme_weather_impact to_timestamp (mkCaller w t)))
    = Some r ->
  avg_traffic_normal r = Some n ->
  avg_traffic_extreme r = Some e ->
  ~ (n == 0)%Q ->
  exists v,
    traffic_reduction r = Finite v /\
    (v == (n - e) / n * 100)%Q /\
    ((e == n / 2)%Q -> (v == 50)%Q) /\
    ((0 < n)%Q -> ((0 < v)%Q <-> (e < n)%Q)).
Proof.
  intros Hin Hw Ht Hm He Hc Htv Hr Hn Hx Hn0.
  rewrite analyze_impact_unfold, Hw, Ht, Hm in Hr. cbn [orb fst returned_at] in Hr.
  rewrite He, (impacts_lookup _ _ _ _ Hin Hc Htv) in Hr. unfold impact_of in Hr.
  destruct (_ && _) in Hr; [|discriminate].
  inversion Hr; subst r; clear Hr. cbn [avg_traffic_normal avg_traffic_extreme] in Hn, Hx.
  cbn [traffic_reduction]. rewrite Hn, Hx. cbn [of_num fsub fdiv].
  rewrite (nonzero_Qeq_bool n Hn0). cbn [fmul].
  exists ((n - e) / n * 100)%Q. split; [reflexivity|]. split; [reflexivity|]. split.
  - intros Hhalf. rewrite Hhalf. field. exact Hn0.
  - intros Hpos.
    assert (Hd : ((n - e) / n * n == n - e)%Q) by (field; exact Hn0).
    set (d := ((n - e) / n)%Q) in *. split; intros H; nra.
Qed.

Lemma relative_change_value_witness :
  exists v,
    Some (Finite v) =
      option_map traffic_reduction
        (returned_at "heatwave_impact"
           (fst (analyze_extreme_weather_impact Iso.to_timestamp
                   (mkCaller Sample.hot_then_mild Sample.half_traffic)))) /\
    (v == 50)%Q.
Proof.
  destruct (relative_change_value Iso.to_timestamp Sample.hot_then_mild Sample.half_traffic
              (mkFrame ["date"; "TMAX"; "traffic_volume"]
                 [Sample.with_traffic_volume (Some 50%Q)
                    (Sample.tmax_row (Timestamp 20240101) 95);
                  Sample.with_traffic_volume (Some 100%Q)
                    (Sample.tmax_row (Timestamp 20240102) 70)])
              (snd (merged_frames Iso.to_timestamp
                      (mkCaller Sample.hot_then_mild Sample.half_traffic)))
              "heatwave_impact" "TMAX" 90%Q
              (mkImpact (Some (50 / 1)%Q) (Some (100 / 1)%Q)
                        (Finite ((100 / 1 - 50 / 1) / (100 / 1) * 100)%Q) 1)
              (100 / 1)%Q (50 / 1)%Q)
    as (v & Hv & _ & Hhalf & _).
  - simpl. auto.
  - reflexivity.
  - reflexivity.
  - vm_compute. reflexivity.
  - reflexivity.
  - reflexivity.
  - reflexivity.
  - vm_compute. reflexivity.
  - reflexivity.
  - reflexivity.
  - vm_compute. discriminate.
  - exists v. split.
    + cbn [traffic_reduction] in Hv. rewrite <- Hv. vm_compute. reflexivity.
    + apply Hhalf. reflexivity.
Defined.

Lemma paired_skips_missing (x1 x2 y1 y2 : list num) (v : num) :
  length x1 = length y1 ->
  paired (x1 ++ None :: x2) (y1 ++ v :: y2) = paired (x1 ++ x2) (y1 ++ y2) /\
  paired (y1 ++ v :: y2) (x1 ++ None :: x2) = paired (y1 ++ y2) (x1 ++ x2).
Proof.
  intros H. unfold paired.
  rewrite !combine_app_same by (auto; symmetry; exact H).
  cbn [combine]. rewrite !omap_app. cbn [omap].
  destruct v; split; reflexivity.
Qed.

(** X13: a record whose value is missing in either series has no effect
    on the correlation coefficient or on the p-value: both are computed
    as if the record were not there. *)
Theorem correlation_skips_missing
    (series_corr pearsonr_p_value : list Q -> list Q -> result num)
    (x1 x2 y1 y2 : list num) (v : num) :
  length x1 = length y1 ->
  _calculate_correlation series_corr (x1 ++ None :: x2) (y1 ++ v :: y2)
    = _calculate_correlation series_corr (x1 ++ x2) (y1 ++ y2) /\
  _calculate_correlation series_corr (y1 ++ v :: y2) (x1 ++ None :: x2)
    = _calculate_correlation series_corr (y1 ++ y2) (x1 ++ x2) /\
  _calculate_p_value pearsonr_p_value (x1 ++ None :: x2) (y1 ++ v :: y2)
    = _calculate_p_value pearsonr_p_value (x1 ++ x2) (y1 ++ y2) /\
  _calculate_p_value pearsonr_p_value (y1 ++ v :: y2) (x1 ++ None :: x2)
    = _calculate_p_value pearsonr_p_value (y1 ++ y2) (x1 ++ x2).
Proof.
  intros H. destruct (paired_skips_missing x1 x2 y1 y2 v H) as [H1 H2].
  unfold _calculate_correlation, _calculate_p_value. rewrite H1, H2.
  repeat split; reflexivity.
Qed.

Lemma correlation_skips_missing_witness :
  _calculate_correlation Iso.series_corr ([Some 1%Q] ++ None :: [Some 2%Q])
    ([Some 3%Q] ++ Some 4%Q :: [Some 5%Q])
  = _calculate_correlation Iso.series_corr ([Some 1%Q] ++ [Some 2%Q])
      ([Some 3%Q] ++ [Some 5%Q]).
Proof.
  apply (correlation_skips_missing Iso.series_corr Iso.pearsonr_p_value
           [Some 1%Q] [Some 2%Q] [Some 3%Q] [Some 5%Q] (Some 4%Q)).
  reflexivity.
Defined.

(** ** Properties of the statistics *)

Lemma section_lookup_ne (b : bool) (k k' : string) (v : gmap string stat)
    (s : gmap string (gmap string stat)) :
  k <> k' -> (if b then <[k' := v]> s else s) !! k = s !! k.
Proof. intros H. destruct b; [apply lookup_insert_ne; congruence | reflexivity]. Qed.

(** The statistics never raise, and a date range that cannot be computed
    costs no other section. *)
Lemma statistics_result strftime series_std scalar_sub object_min object_max df :
  empty df = false ->
  exists s,
    calculate_weather_statistics strftime series_std scalar_sub object_min object_max df = Ok s /\
    forall name, name <> "date_range" -> s !! name = sections series_std scalar_sub df !! name.
Proof.
  intros He. unfold calculate_weather_statistics. rewrite He.
  assert (Hb : statistics_body strftime series_std scalar_sub object_min object_max df ∅ =
               match date_range_stats strftime object_min object_max df with
               | Ok range => (Ok tt, <["date_range" := range]> (sections series_std scalar_sub df))
               | Raise e => (Raise e, sections series_std scalar_sub df)
               end).
  { unfold statistics_body. do 5 (erewrite mbind_ok by apply when_modify_ok).
    unfold mbind, mlift, mmodify.
    destruct (date_range_stats strftime object_min object_max df); reflexivity. }
  unfold mtry. unfold mbind at 1. rewrite Hb.
  destruct (date_range_stats strftime object_min object_max df) as [range|e];
    cbn [fst mget]; eexists; (split; [reflexivity|]); intros name Hn.
  - apply lookup_insert_ne. congruence.
  - reflexivity.
Qed.

Lemma filter_length_mono {A} (f g : A -> bool) (l : list A) :
  (forall a, f a = true -> g a = true) ->
  (length (List.filter f l) <= length (List.filter g l))%nat.
Proof.
  intros H. induction l as [|a l IH]; simpl; [lia|].
  destruct (f a) eqn:Ef.
  - rewrite (H a Ef). simpl. lia.
  - destruct (g a); simpl; lia.
Qed.

Lemma num_gt_mono (v : num) (lo hi : Q) :
  (lo <= hi)%Q -> num_gt v (Some hi) = true -> num_gt v (Some lo) = true.
Proof.
  intros Hle. destruct v as [a|]; simpl; [|discriminate].
  unfold Qlt_bool. intros H. apply negb_true_iff in H. apply negb_true_iff.
  destruct (Qle_bool a lo) eqn:E; [|reflexivity].
  apply Qle_bool_iff in E.
  assert (Ha : Qle_bool a hi = true) by (apply Qle_bool_iff; lra).
  congruence.
Qed.

(** X14: whenever the series is not empty and has the column,
    [calculate_weather_statistics] reports both counts of its section, and
    the count over the higher threshold never exceeds the count over the
    lower one: heavy rain days among rainy days, extreme wind days among
    high wind days, snowstorm days among snowy days.  This holds even when
    the date range cannot be computed. *)
Theorem threshold_counts_nested
    (strftime : Z -> string) (series_std : list num -> num)
    (scalar_sub : num -> num -> num)
    (object_min object_max : list datecell -> result datecell)
    (df : frame) (col name hi lo : string) :
  In (col, name, hi, lo) nested_counts ->
  empty df = false ->
  has_column df col = true ->
  exists h l,
    stat_at name hi
      (calculate_weather_statistics strftime series_std scalar_sub object_min object_max df)
    = Some (Count h) /\
    stat_at name lo
      (calculate_weather_statistics strftime series_std scalar_sub object_min object_max df)
    = Some (Count l) /\
    (h <= l)%nat.
Proof.
  intros Hin He Hc.
  destruct (statistics_result strftime series_std scalar_sub object_min object_max df He)
    as (s & -> & Hs).
  unfold stat_at. cbn [returned_at].
  simpl in Hin. destruct Hin as [E|[E|[E|[]]]]; inversion E; subst; clear E;
    rewrite Hs by discriminate; unfold sections; cbv zeta; rewrite Hc;
    rewrite ?section_lookup_ne by discriminate; rewrite lookup_insert_eq;
    eexists _, _; (split; [reflexivity|]); (split; [reflexivity|]);
    apply filter_length_mono; intros r; apply num_gt_mono; vm_compute; discriminate.
Qed.

Lemma threshold_counts_nested_witness :
  exists h l,
    stat_at "wind" "extreme_wind_days"
      (calculate_weather_statistics Iso.strftime (fun _ => None) (fun _ _ => None)
         (fun _ => Raise ValueError) (fun _ => Raise ValueError) (Sample.wind_at 50))
    = Some (Count h) /\
    stat_at "wind" "high_wind_days"
      (calculate_weather_statistics Iso.strftime (fun _ => None) (fun _ _ => None)
         (fun _ => Raise ValueError) (fun _ => Raise ValueError) (Sample.wind_at 50))
    = Some (Count l) /\
    (h <= l)%nat.
Proof.
  apply (threshold_counts_nested Iso.strftime (fun _ => None) (fun _ _ => None)
           (fun _ => Raise ValueError) (fun _ => Raise ValueError) (Sample.wind_at 50)
           "AWND" "wind" "extreme_wind_days" "high_wind_days").
  - simpl. auto.
  - reflexivity.
  - reflexivity.
Defined.

(** X15: on a cleaned, non-empty series with the column, the heavy rain,
    snowstorm and high wind day counts of [calculate_weather_statistics]
    equal the number of heavy rainfall, snowstorm and high wind events
    that [detect_extreme_events] reports for the same series. *)
Theorem statistics_counts_match_events
    (strftime : Z -> string) (series_std : list num -> num)
    (scalar_sub : num -> num -> num)
    (object_min object_max : list datecell -> result datecell)
    (df : frame) (key col name cnt : string) :
  In (key, col, name, cnt) matching_counts ->
  cleaned df ->
  empty df = false ->
  has_column df col = true ->
  exists events,
    returned_at key (detect_extreme_events strftime df) = Some events /\
    stat_at name cnt
      (calculate_weather_statistics strftime series_std scalar_sub object_min object_max df)
    = Some (Count (length events)).
Proof.
  intros Hin Hcl He Hc.
  destruct (statistics_result strftime series_std scalar_sub object_min object_max df He)
    as (s & -> & Hs).
  unfold stat_at. cbn [returned_at].
  simpl in Hin. destruct Hin as [E|[E|[E|[]]]]; inversion E; subst; clear E.
  - rewrite (point_category_returned strftime df "heavy_rainfall" "precipitation" "PRCP" 2%Q)
      by (simpl; auto).
    eexists. split; [reflexivity|].
    rewrite Hs by discriminate. unfold sections. cbv zeta. rewrite Hc.
    rewrite ?section_lookup_ne by discriminate. rewrite lookup_insert_eq.
    rewrite List.length_map. reflexivity.
  - rewrite (point_category_returned strftime df "snowstorms" "snowfall" "SNOW" 6%Q)
      by (simpl; auto).
    eexists. split; [reflexivity|].
    rewrite Hs by discriminate. unfold sections. cbv zeta. rewrite Hc.
    rewrite ?section_lookup_ne by discriminate. rewrite lookup_insert_eq.
    rewrite List.length_map. reflexivity.
  - rewrite (point_category_returned strftime df "high_winds" "wind_speed" "AWND" 20%Q)
      by (simpl; auto).
    eexists. split; [reflexivity|].
    rewrite Hs by discriminate. unfold sections. cbv zeta. rewrite Hc.
    rewrite ?section_lookup_ne by discriminate. rewrite lookup_insert_eq.
    rewrite List.length_map. reflexivity.
Qed.

Lemma statistics_counts_match_events_witness :
  exists events,
    returned_at "high_winds" (detect_extreme_events Iso.strftime (Sample.wind_at 30))
    = Some events /\
    stat_at "wind" "high_wind_days"
      (calculate_weather_statistics Iso.strftime (fun _ => None) (fun _ _ => None)
         (fun _ => Raise ValueError) (fun _ => Raise ValueError) (Sample.wind_at 30))
    = Some (Count (length events)).
Proof.
  apply (statistics_counts_match_events Iso.strftime (fun _ => None) (fun _ _ => None)
           (fun _ => Raise ValueError) (fun _ => Raise ValueError) (Sample.wind_at 30)
           "high_winds" "AWND" "wind" "high_wind_days").
  - simpl. auto.
  - split; [reflexivity|]. repeat constructor; eexists; reflexivity.
  - reflexivity.
  - reflexivity.
Defined.


(** ** Smallest and largest value of a series *)

Lemma Qmin_le_l x y : (Qmin x y <= x)%Q.
Proof.
  unfold Qmin. destruct (Qle_bool x y) eqn:E; [lra|].
  destruct (Qlt_le_dec y x) as [H|H]; [lra|].
  apply Qle_bool_iff in H. congruence.
Qed.

Lemma Qmax_ge_l x y : (x <= Qmax x y)%Q.
Proof.
  unfold Qmax. destruct (Qle_bool x y) eqn:E; [apply Qle_bool_iff, E | lra].
Qed.

Lemma fold_left_Qmin_le_first l x : (fold_left Qmin l x <= x)%Q.
Proof.
  revert x. induction l as [|z l IH]; intros x; simpl; [lra|].
  pose proof (IH (Qmin x z)). pose proof (Qmin_le_l x z). lra.
Qed.

Lemma fold_left_Qmax_ge_first l x : (x <= fold_left Qmax l x)%Q.
Proof.
  revert x. induction l as [|z l IH]; intros x; simpl; [lra|].
  pose proof (IH (Qmax x z)). pose proof (Qmax_ge_l x z). lra.
Qed.

(** The smallest and the largest value present in a column are missing
    together (no value is present) or in order. *)
Lemma series_min_le_max (col : list num) : ordered (series_min col) (series_max col).
Proof.
  unfold series_min, series_max. destruct (valid col) as [|v vs]; [exact I|].
  cbn [ordered].
  pose proof (fold_left_Qmin_le_first vs v). pose proof (fold_left_Qmax_ge_first vs v). lra.
Qed.

Lemma ordered_present (a b : num) x :
  a = Some x -> ordered a b -> exists y, b = Some y /\ (x <= y)%Q.
Proof. intros -> H. destruct b as [y|]; [eauto | destruct H]. Qed.

(** X16: on a cleaned series, every heatwave, cold spell and drought
    period that [detect_extreme_events] reports carries a smallest and a
    largest value, neither of them missing, and the smallest is at most
    the largest. *)
Theorem run_event_min_below_max
    (strftime : Z -> string) (df : frame) (key col : string) (thr : Q) (minc : nat)
    (cmp : string) (events : list event) (e : run_event) :
  In (key, col, thr, minc, cmp) run_categories ->
  cleaned df ->
  has_column df col = true ->
  returned_at key (detect_extreme_events strftime df) = Some events ->
  In (RunEvent e) events ->
  exists lo hi,
    min_value e = Some lo /\ max_value e = Some hi /\ (lo <= hi)%Q.
Proof.
  intros Hin Hcl Hc Hret He.
  destruct (run_category_test _ _ _ _ _ Hin) as (Hm3 & test & Htest).
  rewrite (detect_run_category _ _ _ _ _ _ _ Hin Hcl Hc) in Hret.
  inversion Hret; subst events; clear Hret.
  apply List.in_map_iff in He. destruct He as (e' & E & He). inversion E; subst e'; clear E.
  rewrite (detect_consecutive_groups strftime df col thr minc cmp test
             (S (list_max (consecutive_groups (map test (map (cell col) (rows df))))))
             Hcl Hc Htest) in He by lia.
  rewrite (List.map_map (cell col) test) in He.
  apply List.in_flat_map in He. destruct He as (k & _ & He).
  unfold per_group in He.
  destruct (Nat.leb minc (group_count _ _ k)) eqn:Ecount; [|destruct He].
  destruct (Nat.leb minc (length _)) eqn:Elen; [|destruct He].
  destruct He as [<-|[]]. apply Nat.leb_le in Ecount, Elen.
  cbn [min_value max_value run_event_pure].
  pose proof (group_all_qualify (fun r => test (cell col r)) (rows df) k) as Hq.
  set (g := group_rows (rows df)
              (consecutive_groups (map (fun r => test (cell col r)) (rows df))) k) in *.
  pose proof (comparison_test_missing _ _ _ Htest) as Hnone.
  destruct (extremes_qualify test (map (cell col) g) Hnone) as [Hmin _].
  { destruct g; [simpl in Elen; lia | discriminate]. }
  { apply List.Forall_map. apply Hq. lia. }
  destruct (series_min (map (cell col) g)) as [lo|] eqn:Elo; [|congruence].
  pose proof (series_min_le_max (map (cell col) g)) as Hord. rewrite Elo in Hord.
  destruct (ordered_present _ _ lo eq_refl Hord) as (hi & Ehi & Hle).
  exists lo, hi. rewrite Ehi. auto.
Qed.

Lemma run_event_min_below_max_witness :
  exists lo hi,
    min_value (run_event_pure Iso.strftime "TMAX" (rows (Sample.heat 3))) = Some lo /\
    max_value (run_event_pure Iso.strftime "TMAX" (rows (Sample.heat 3))) = Some hi /\
    (lo <= hi)%Q.
Proof.
  apply (run_event_min_below_max Iso.strftime (Sample.heat 3) "heatwaves" "TMAX" 90%Q 3 ">"
           [RunEvent (run_event_pure Iso.strftime "TMAX" (rows (Sample.heat 3)))]).
  - simpl. auto.
  - split; [reflexivity|]. repeat constructor; eexists; reflexivity.
  - reflexivity.
  - vm_compute. reflexivity.
  - left. reflexivity.
Defined.

(** X17: whenever the series is not empty and has the column, the
    smallest and the largest value that [calculate_weather_statistics]
    reports for TMAX ([min_temp], [max_temp]) and for TMIN
    ([min_min_temp], [max_min_temp]) are missing together or in order,
    the smallest at most the largest.  This holds even when the date
    range cannot be computed. *)
Theorem statistics_min_below_max
    (strftime : Z -> string) (series_std : list num -> num)
    (scalar_sub : num -> num -> num)
    (object_min object_max : list datecell -> result datecell)
    (df : frame) (col name smallest largest : string) :
  In (col, name, smallest, largest) extreme_pairs ->
  empty df = false ->
  has_column df col = true ->
  exists lo hi,
    stat_at name smallest
      (calculate_weather_statistics strftime series_std scalar_sub object_min object_max df)
    = Some (Number lo) /\
    stat_at name largest
      (calculate_weather_statistics strftime series_std scalar_sub object_min object_max df)
    = Some (Number hi) /\
    ordered lo hi.
Proof.
  intros Hin He Hc.
  destruct (statistics_result strftime series_std scalar_sub object_min object_max df He)
    as (s & -> & Hs).
  unfold stat_at. cbn [returned_at].
  simpl in Hin. destruct Hin as [E|[E|[]]]; inversion E; subst; clear E;
    rewrite Hs by discriminate; unfold sections; cbv zeta; rewrite Hc;
    rewrite ?section_lookup_ne by discriminate; rewrite lookup_insert_eq;
    eexists _, _; (split; [reflexivity|]); (split; [reflexivity|]);
    apply series_min_le_max.
Qed.

Lemma statistics_min_below_max_witness :
  exists lo hi,
    stat_at "temperature" "min_temp"
      (calculate_weather_statistics Iso.strftime (fun _ => None) (fun _ _ => None)
         (fun _ => Raise ValueError) (fun _ => Raise ValueError) (Sample.heat 3))
    = Some (Number lo) /\
    stat_at "temperature" "max_temp"
      (calculate_weather_statistics Iso.strftime (fun _ => None) (fun _ _ => None)
         (fun _ => Raise ValueError) (fun _ => Raise ValueError) (Sample.heat 3))
    = Some (Number hi) /\
    ordered lo hi.
Proof.
  apply (statistics_min_below_max Iso.strftime (fun _ => None) (fun _ _ => None)
           (fun _ => Raise ValueError) (fun _ => Raise ValueError) (Sample.heat 3)
           "TMAX" "temperature" "min_temp" "max_temp").
  - simpl. auto.
  - reflexivity.
  - reflexivity.
Defined.
